(** * Core transforms of the Dataflow Python SDK, embedded in Rocq

    A shallow embedding of [google/cloud/dataflow/transforms/core.py]:
    the combiner algebra ([CombineFn], [CallableWrapperCombineFn],
    [CombineValuesDoFn], [CombineGlobally]), the two [DoFn]s of
    [GroupByKey], [Partition], [Windowing], [Create], the processing
    context, [FlatMap], [Map], [Filter], [ParDo.with_outputs] and
    [Flatten], with the reducers of the combiners' test.

    Conventions.
    - A Python call either returns or raises: [result A].
    - An iterable is the list of the items it produces.
    - [*args] is one argument [args]; keyword side inputs travel with the
      positional ones and never steer control flow in the modelled code, so
      they are not kept apart.
    - A generator ([yield]) is the list of what it yields. *)

From stdpp Require Import gmap strings list.
From Stdlib Require Import ZArith DecimalString DecimalZ.

(* ================================================================== *)
(** * Part I: definitions                                              *)
(* ================================================================== *)

(** ** Exceptions and results *)

Inductive exn : Type :=
| TypeError
| ValueError
| TypeCheckError
| NotImplementedError.

Inductive result (A : Type) : Type :=
| Ok (a : A)
| Raise (e : exn).
Arguments Ok {A} a.
Arguments Raise {A} e.

#[global] Instance result_ret : MRet result := λ A a, Ok a.
#[global] Instance result_bind : MBind result := λ A B f m,
  match m with
  | Ok a => f a
  | Raise e => Raise e
  end.

#[global] Instance exn_eq_dec : EqDecision exn.
Proof. solve_decision. Defined.

(** ** Python sequences *)

(** [l[start::step]] for [step >= 1]: the items at indices [start],
    [start + step], [start + 2 * step], ...  The first argument counts the
    items still to skip before the next one is taken. *)
Fixpoint py_slice_step {A : Type} (skip step : nat) (l : list A) : list A :=
  match l with
  | [] => []
  | x :: t =>
      match skip with
      | O => x :: py_slice_step (step - 1) step t
      | S s => py_slice_step s step t
      end
  end.

(** [range(n)] *)
Definition py_range (n : nat) : list nat := seq 0 n.

(** ** CombineFn *)

(** The five overridable methods of class [CombineFn].  [Args] stands for
    the side inputs, [In] for the elements, [Acc] for the accumulators and
    [Out] for the output. *)
Record CombineFn (Args In Acc Out : Type) : Type := {
  create_accumulator : Args → result Acc;
  add_input : Acc → In → Args → result Acc;
  add_inputs : Acc → list In → Args → result Acc;
  merge_accumulators : list Acc → Args → result Acc;
  extract_output : Acc → Args → result Out
}.
Arguments create_accumulator {Args In Acc Out} _ _.
Arguments add_input {Args In Acc Out} _ _ _ _.
Arguments add_inputs {Args In Acc Out} _ _ _ _.
Arguments merge_accumulators {Args In Acc Out} _ _ _.
Arguments extract_output {Args In Acc Out} _ _ _.

(** The body of [CombineFn.add_inputs] in the base class: loop over the
    elements calling [self.add_input]. *)
Fixpoint default_add_inputs {Args In Acc : Type}
    (add_input : Acc → In → Args → result Acc)
    (accumulator : Acc) (elements : list In) (args : Args) : result Acc :=
  match elements with
  | [] => Ok accumulator
  | element :: rest =>
      accumulator' ← add_input accumulator element args;
      default_add_inputs add_input accumulator' rest args
  end.

(** The base class itself: every method but [add_inputs] raises
    [NotImplementedError]. *)
Definition BaseCombineFn (Args In Acc Out : Type) : CombineFn Args In Acc Out :=
  let add_input := λ _ _ _, Raise NotImplementedError in
  {| create_accumulator := λ _, Raise NotImplementedError;
     add_input := add_input;
     add_inputs := default_add_inputs add_input;
     merge_accumulators := λ _ _, Raise NotImplementedError;
     extract_output := λ _ _, Raise NotImplementedError |}.

(** A subclass that overrides [create_accumulator], [add_input],
    [merge_accumulators] and [extract_output] and inherits [add_inputs]. *)
Definition UserCombineFn {Args In Acc Out : Type}
    (create : Args → result Acc)
    (add : Acc → In → Args → result Acc)
    (merge : list Acc → Args → result Acc)
    (extract : Acc → Args → result Out) : CombineFn Args In Acc Out :=
  {| create_accumulator := create;
     add_input := add;
     add_inputs := default_add_inputs add;
     merge_accumulators := merge;
     extract_output := extract |}.

(** [CombineFn.apply] *)
Definition CombineFn_apply {Args In Acc Out : Type}
    (self : CombineFn Args In Acc Out) (elements : list In) (args : Args)
  : result Out :=
  a0 ← create_accumulator self args;
  a ← add_inputs self a0 elements args;
  extract_output self a args.

(** ** CombineValuesDoFn *)

Record CombineValuesDoFn (Args In Acc Out : Type) : Type := {
  combinefn : CombineFn Args In Acc Out;
  runtime_type_check : bool
}.
Arguments combinefn {Args In Acc Out} _.
Arguments runtime_type_check {Args In Acc Out} _.

(** The loop [for k in range(3): if len(elements) <= k: break; ...append(...)]
    of [CombineValuesDoFn.process], over the remaining values [ks] of [k]. *)
Fixpoint fill_accumulators {Args In Acc Out : Type}
    (cf : CombineFn Args In Acc Out) (elements : list In) (args : Args)
    (ks : list nat) : result (list Acc) :=
  match ks with
  | [] => Ok []
  | k :: ks' =>
      if bool_decide (length elements ≤ k) then Ok []
      else
        a0 ← create_accumulator cf args;
        a ← add_inputs cf a0 (py_slice_step k 3 elements) args;
        accumulators ← fill_accumulators cf elements args ks';
        Ok (a :: accumulators)
  end.

(** [CombineValuesDoFn.process]; [p_context.element] is the pair
    [(key, values)]. *)
Definition CombineValuesDoFn_process {Args In Acc Out K : Type}
    (self : CombineValuesDoFn Args In Acc Out)
    (element : K * list In) (args : Args) : result (list (K * Out)) :=
  if runtime_type_check self then
    r ← CombineFn_apply (combinefn self) element.2 args;
    Ok [(element.1, r)]
  else
    let elements := element.2 in
    accumulators ← fill_accumulators (combinefn self) elements args (py_range 3);
    accumulator ← merge_accumulators (combinefn self) accumulators args;
    r ← extract_output (combinefn self) accumulator args;
    Ok [(element.1, r)].

(** *** The contract of an associative, commutative reduction *)

(** Folding one batch into a fresh accumulator. *)
Definition accumulate {Args In Acc Out : Type}
    (cf : CombineFn Args In Acc Out) (args : Args) (batch : list In)
  : result Acc :=
  a0 ← create_accumulator cf args;
  add_inputs cf a0 batch args.

(** The accumulator of a batch does not depend on the order of the batch
    (commutativity), and merging the accumulators of any number of batches
    (none, one, several) is the accumulator of their concatenation
    (associativity). *)
Record AssocCommReduction {Args In Acc Out : Type}
    (cf : CombineFn Args In Acc Out) (args : Args) : Prop := {
  reduction_comm : ∀ p q : list In,
    p ≡ₚ q → accumulate cf args p = accumulate cf args q;
  reduction_merge : ∀ batches : list (list In),
    (accs ← mapM (accumulate cf args) batches;
     merge_accumulators cf accs args)
    = accumulate cf args (concat batches)
}.

(** The sub-batches the loop of [CombineValuesDoFn.process] folds, in the
    spec's words: the values split by index modulo 3, a sub-batch for each
    [k] below the number of values. *)
Fixpoint round_robin_batches {In : Type} (elements : list In) (ks : list nat)
  : list (list In) :=
  match ks with
  | [] => []
  | k :: ks' =>
      if bool_decide (length elements ≤ k) then []
      else py_slice_step k 3 elements :: round_robin_batches elements ks'
  end.

(** A [CombineFn] written from a binary operation [op] with unit [unit]:
    the accumulator starts at [unit], an element [x] is folded in as
    [op a (inj x)], and merging folds [op] over the accumulators. *)
Definition MonoidCombineFn {Args In Acc Out : Type}
    (unit : Acc) (op : Acc → Acc → Acc) (inj : In → Acc)
    (out : Acc → result Out) : CombineFn Args In Acc Out :=
  UserCombineFn
    (λ _, Ok unit)
    (λ a x _, Ok (op a (inj x)))
    (λ accs _, Ok (foldr op unit accs))
    (λ a _, out a).

(** The [AverageFn] of the snippets' test, over integers: the accumulator
    is [(sum, count)] and the output is the quotient (no output for an
    empty input, where Python yields NaN). *)
Definition AverageFn : CombineFn unit Z (Z * Z) (option Z) :=
  UserCombineFn
    (λ _, Ok (0, 0)%Z)
    (λ '(sum, count) input _, Ok (sum + input, count + 1)%Z)
    (λ accumulators _,
       Ok (foldr Z.add 0%Z accumulators.*1, foldr Z.add 0%Z accumulators.*2))
    (λ '(sum, count) _,
       Ok (if bool_decide (count = 0%Z) then None else Some (sum / count)%Z)).

(** ** Python values *)

(** The values the modelled code inspects.  [PyObject id] is an instance
    known only by its identity. *)
#[warnings="-register-all"] Inductive pyval : Type :=
| PyNone
| PyInt (z : Z)
| PyStr (s : string)
| PyTuple (items : list pyval)
| PyList (items : list pyval)
| PyDict (entries : list (pyval * pyval))
| PyObject (id : positive).

(** The characters of a string, each a string of length one. *)
Fixpoint py_chars (s : string) : list pyval :=
  match s with
  | EmptyString => []
  | String c s' => PyStr (String c EmptyString) :: py_chars s'
  end.

(** [iter(v)], run to the end: the items, or [TypeError] when [v] is not
    iterable.  A dict iterates over its keys. *)
Definition py_iter (v : pyval) : result (list pyval) :=
  match v with
  | PyStr s => Ok (py_chars s)
  | PyTuple items => Ok items
  | PyList items => Ok items
  | PyDict entries => Ok entries.*1
  | PyNone | PyInt _ | PyObject _ => Raise TypeError
  end.

(** [isinstance(v, basestring)] and [isinstance(v, dict)] *)
Definition is_basestring (v : pyval) : bool :=
  match v with PyStr _ => true | _ => false end.
Definition is_dict (v : pyval) : bool :=
  match v with PyDict _ => true | _ => false end.

(** [d.items()]: the list of [(key, value)] tuples. *)
Definition py_items (entries : list (pyval * pyval)) : list pyval :=
  (λ kv, PyTuple [kv.1; kv.2]) <$> entries.

(** [str(z)] of an integer: its decimal digits, [-] in front when negative. *)
Definition py_str_int (z : Z) : string := NilZero.string_of_int (Z.to_int z).

(** The builtin [sum(iterable, start=0)] on integers. *)
Fixpoint py_sum_from (start : Z) (items : list pyval) : result pyval :=
  match items with
  | [] => Ok (PyInt start)
  | PyInt z :: rest => py_sum_from (start + z) rest
  | _ :: _ => Raise TypeError
  end.

Definition py_sum (iterable args : list pyval) : result pyval :=
  match args with
  | [] => py_sum_from 0 iterable
  | [PyInt start] => py_sum_from start iterable
  | _ => Raise TypeError
  end.

(** ** CallableWrapperCombineFn *)

(** The class attribute [_EMPTY = object()]: one instance, told apart from
    every other value by identity ([is]). *)
Definition EMPTY_id : positive := 1.
Definition EMPTY : pyval := PyObject EMPTY_id.

Definition is_EMPTY (v : pyval) : bool :=
  match v with
  | PyObject id => bool_decide (id = EMPTY_id)
  | _ => false
  end.

(** The wrapped callable [fn] is given as a function of the items of the
    iterable it receives and of the positional side inputs.  Being a
    function it is callable, so the [TypeError] of [__init__] for a
    non-callable [fn] has no place here. *)
Definition callable : Type := list pyval → list pyval → result pyval.

(** [CallableWrapperCombineFn.add_inputs]: [union()] yields the accumulator
    and then the elements. *)
Definition CallableWrapperCombineFn_add_inputs (fn : callable)
    (accumulator : pyval) (elements : list pyval) (args : list pyval)
  : result pyval :=
  let union :=
    if negb (is_EMPTY accumulator) then accumulator :: elements
    else elements in
  fn union args.

(** A call of [self.add_inputs] with the positional arguments
    [positional]: the signature
    [add_inputs(self, accumulator, elements, *args, **kwargs)] binds the
    first two positional arguments and fails with [TypeError] when there
    are fewer.  [elements] arrives as a value and is iterated. *)
Definition call_add_inputs (fn : callable) (positional : list pyval)
  : result pyval :=
  match positional with
  | accumulator :: elements :: args =>
      es ← py_iter elements;
      CallableWrapperCombineFn_add_inputs fn accumulator es args
  | _ => Raise TypeError
  end.

Definition CallableWrapperCombineFn (fn : callable)
  : CombineFn (list pyval) pyval pyval pyval :=
  {| create_accumulator := λ _, Ok EMPTY;
     add_input := λ accumulator element args,
       call_add_inputs fn (PyList [element] :: args);
     add_inputs := CallableWrapperCombineFn_add_inputs fn;
     merge_accumulators := λ accumulators args, fn accumulators args;
     extract_output := λ accumulator _,
       if is_EMPTY accumulator then fn [] [] else Ok accumulator |}.

(** ** Processing contexts and windowed values *)

(** What a [DoFn.process] reads from its [DoFnProcessContext]. *)
Record DoFnProcessContext (E Timestamp Window : Type) : Type := {
  element : E;
  timestamp : Timestamp;
  windows : list Window
}.
Arguments element {E Timestamp Window} _.
Arguments timestamp {E Timestamp Window} _.
Arguments windows {E Timestamp Window} _.

(** [window.WindowedValue(value, timestamp, windows)] *)
Record WindowedValue (V Timestamp Window : Type) : Type := {
  wv_value : V;
  wv_timestamp : Timestamp;
  wv_windows : list Window
}.
Arguments Build_WindowedValue {V Timestamp Window} _ _ _.
Arguments wv_value {V Timestamp Window} _.
Arguments wv_timestamp {V Timestamp Window} _.
Arguments wv_windows {V Timestamp Window} _.

(** [pvalue.SideOutputValue(tag, value)] *)
Record SideOutputValue (E : Type) : Type := {
  tag : string;
  sov_value : E
}.
Arguments Build_SideOutputValue {E} _ _.
Arguments tag {E} _.
Arguments sov_value {E} _.

(** ** GroupByKey.ReifyWindows *)

(** The assignment [k, v = x]: [TypeError] when [x] is not iterable,
    [ValueError] when it does not produce exactly two items. *)
Definition py_unpack2 (x : pyval) : result (pyval * pyval) :=
  items ← py_iter x;
  match items with
  | [k; v] => Ok (k, v)
  | _ => Raise ValueError
  end.

(** [ReifyWindows.process]: the [try] turns a [TypeError] of the unpacking
    into a [TypeCheckError] and lets every other exception through. *)
Definition ReifyWindows_process {Timestamp Window : Type}
    (context : DoFnProcessContext pyval Timestamp Window)
  : result (list (pyval * WindowedValue pyval Timestamp Window)) :=
  match py_unpack2 (element context) with
  | Raise TypeError => Raise TypeCheckError
  | Raise e => Raise e
  | Ok (k, v) =>
      Ok [(k, Build_WindowedValue v (timestamp context) (windows context))]
  end.

(** ** GroupByKey.GroupAlsoByWindow *)

(** What [process] uses of [transforms.trigger] and [transforms.window],
    neither of which is at hand: the driver made by
    [create_trigger_driver], the state object with its timers, and the
    [end] of a window.  The state is mutated by the driver; here it is
    passed in and handed back. *)
Class TriggerModule (V Window Timestamp Tag State Windowing : Type) : Type := {
  window_end : Window → Timestamp;
  InMemoryUnmergedState : State;
  (** the truth value of [state.timers] *)
  timers_pending : State → bool;
  get_and_clear_timers : State → list (Window * (Tag * Timestamp)) * State;
  (** [create_trigger_driver(windowing, True).process_elements] *)
  process_elements : Windowing →
    list (WindowedValue V Timestamp Window) → State →
    list (Window * list V) * State;
  (** [create_trigger_driver(windowing, True).process_timer] *)
  process_timer : Windowing → Window → Timestamp → Tag → State →
    list (Window * list V) * State
}.

Section GroupAlsoByWindow.
Context {K V Window Timestamp Tag State Windowing : Type}.
Context `{!TriggerModule V Window Timestamp Tag State Windowing}.

(** [window.WindowedValue((k, values), out_window.end, [out_window])] *)
Definition pane_of (k : K) (out : Window * list V)
  : WindowedValue (K * list V) Timestamp Window :=
  Build_WindowedValue (k, out.2) (window_end out.1) [out.1].

(** The [for] over the timers that [get_and_clear_timers] returned. *)
Fixpoint fire_timers (windowing : Windowing) (k : K)
    (timers : list (Window * (Tag * Timestamp))) (state : State)
  : list (WindowedValue (K * list V) Timestamp Window) * State :=
  match timers with
  | [] => ([], state)
  | (timer_window, (tag, timestamp)) :: rest =>
      let '(outs, state) :=
        process_timer windowing timer_window timestamp tag state in
      let '(more, state) := fire_timers windowing k rest state in
      ((pane_of k <$> outs) ++ more, state)
  end.

(** The loop [while state.timers], for at most [fuel] rounds.  The flag
    tells whether the loop came to its end. *)
Fixpoint drain_timers (fuel : nat) (windowing : Windowing) (k : K)
    (state : State)
  : list (WindowedValue (K * list V) Timestamp Window) * bool :=
  match fuel with
  | O => ([], negb (timers_pending state))
  | S fuel =>
      if timers_pending state then
        let '(timers, state) := get_and_clear_timers state in
        let '(panes, state) := fire_timers windowing k timers state in
        let '(more, finished) := drain_timers fuel windowing k state in
        (panes ++ more, finished)
      else ([], true)
  end.

(** A pane for key [k], in the spec's words: the value is [(k, values)],
    the timestamp is the end of one window, and that window is the only
    one of the pane. *)
Definition is_pane (k : K)
    (p : WindowedValue (K * list V) Timestamp Window) : Prop :=
  ∃ (out_window : Window) (values : list V),
    p = Build_WindowedValue (k, values) (window_end out_window) [out_window].

(** [GroupAlsoByWindow.process]: the panes yielded within [fuel] rounds
    of the timer loop, and whether the generator is exhausted. *)
Definition GroupAlsoByWindow_process (windowing : Windowing)
    (element : K * list (WindowedValue V Timestamp Window)) (fuel : nat)
  : list (WindowedValue (K * list V) Timestamp Window) * bool :=
  let '(k, vs) := element in
  let state := InMemoryUnmergedState in
  let '(outs, state) := process_elements windowing vs state in
  let '(more, finished) := drain_timers fuel windowing k state in
  ((pane_of k <$> outs) ++ more, finished).
End GroupAlsoByWindow.

(** ** Partition *)

(** [PartitionFn]: [partition_for] returns, by its contract, an integer. *)
Record PartitionFn (E Timestamp Window Args : Type) : Type := {
  partition_for : DoFnProcessContext E Timestamp Window → Z → Args → result Z
}.
Arguments partition_for {E Timestamp Window Args} _ _ _ _.

Definition CallableWrapperPartitionFn {E Timestamp Window Args : Type}
    (fn : E → Z → Args → result Z) : PartitionFn E Timestamp Window Args :=
  {| partition_for := λ context num_partitions args,
       fn (element context) num_partitions args |}.

(** [Partition.ApplyPartitionFnFn.process] *)
Definition ApplyPartitionFnFn_process {E Timestamp Window Args : Type}
    (context : DoFnProcessContext E Timestamp Window)
    (partitionfn : PartitionFn E Timestamp Window Args) (n : Z) (args : Args)
  : result (list (SideOutputValue E)) :=
  partition ← partition_for partitionfn context n args;
  if negb ((0 <=? partition)%Z && (partition <? n)%Z) then Raise ValueError
  else Ok [Build_SideOutputValue (py_str_int partition) (element context)].

(** The tags [Partition.apply] declares: [str(t) for t in range(n)]. *)
Definition Partition_tags (n : nat) : list string :=
  (λ t, py_str_int (Z.of_nat t)) <$> py_range n.

(** ** Windowing *)

Inductive AccumulationMode : Type := DISCARDING | ACCUMULATING.

#[global] Instance AccumulationMode_eq_dec : EqDecision AccumulationMode.
Proof. solve_decision. Defined.

(** What [Windowing] uses of [transforms.window] and [transforms.trigger]:
    the window functions and the triggers with their [==], and the two
    values [GlobalWindows()] and [DefaultTrigger()]. *)
Class WindowingModule (WindowFn TriggerFn : Type) : Type := {
  GlobalWindows : WindowFn;
  DefaultTrigger : TriggerFn;
  windowfn_eq : WindowFn → WindowFn → bool;
  triggerfn_eq : TriggerFn → TriggerFn → bool
}.

Record Windowing (WindowFn TriggerFn : Type) : Type := {
  windowfn : WindowFn;
  triggerfn : TriggerFn;
  accumulation_mode : AccumulationMode;
  _is_default : bool
}.
Arguments windowfn {WindowFn TriggerFn} _.
Arguments triggerfn {WindowFn TriggerFn} _.
Arguments accumulation_mode {WindowFn TriggerFn} _.
Arguments _is_default {WindowFn TriggerFn} _.

(** [Windowing.__init__]; an omitted argument is [None]. *)
Definition Windowing_init {WindowFn TriggerFn : Type}
    `{!WindowingModule WindowFn TriggerFn}
    (windowfn : WindowFn) (triggerfn : option TriggerFn)
    (accumulation_mode : option AccumulationMode)
  : result (Windowing WindowFn TriggerFn) :=
  let triggerfn :=
    match triggerfn with
    | None => DefaultTrigger
    | Some t => t
    end in
  accumulation_mode ←
    match accumulation_mode with
    | None =>
        if triggerfn_eq triggerfn DefaultTrigger then Ok DISCARDING
        else Raise ValueError
    | Some mode => Ok mode
    end;
  Ok {| windowfn := windowfn;
        triggerfn := triggerfn;
        accumulation_mode := accumulation_mode;
        _is_default :=
          windowfn_eq windowfn GlobalWindows
          && triggerfn_eq triggerfn DefaultTrigger
          && bool_decide (accumulation_mode = DISCARDING) |}.

(** [Windowing.is_default] *)
Definition is_default {WindowFn TriggerFn : Type}
    (self : Windowing WindowFn TriggerFn) : bool :=
  _is_default self.

(** ** Create *)

(** [Create] keeps what it is given, so the identity of objects matters:
    the objects live in a heap, a reference is an address of the heap, and
    a list or a dict changes in place while a string, a number or a tuple
    cannot be changed. *)
Abbreviation heap := (gmap positive pyval).

(** A new object, at an address not in use. *)
Definition alloc (h : heap) (v : pyval) : positive * heap :=
  let l := fresh (dom h) in (l, <[l := v]> h).

(** What the rest of the program may do to the heap in one step: change
    the items of a list or the entries of a dict in place (append, item
    assignment, deletion, clear...), or make a new object. *)
Inductive heap_step : heap → heap → Prop :=
| step_list (h : heap) (l : positive) (items items' : list pyval) :
    h !! l = Some (PyList items) →
    heap_step h (<[l := PyList items']> h)
| step_dict (h : heap) (l : positive) (entries entries' : list (pyval * pyval)) :
    h !! l = Some (PyDict entries) →
    heap_step h (<[l := PyDict entries']> h)
| step_alloc (h : heap) (l : positive) (v : pyval) :
    h !! l = None →
    heap_step h (<[l := v]> h).

(** [x.items()] of a dict [x]: a new list. *)
Definition call_items (h : heap) (x : positive) : result (positive * heap) :=
  match h !! x with
  | Some (PyDict entries) => Ok (alloc h (PyList (py_items entries)))
  | _ => Raise TypeError
  end.

(** [tuple(x)]: a tuple is returned as it is, any other iterable is read
    into a new tuple, anything else is a [TypeError].  (A reference always
    points into the heap; one that does not is answered like a value that
    cannot be iterated.) *)
Definition py_tuple (h : heap) (x : positive) : result (positive * heap) :=
  match h !! x with
  | Some (PyTuple _) => Ok (x, h)
  | Some obj => items ← py_iter obj; Ok (alloc h (PyTuple items))
  | None => Raise TypeError
  end.

Record Create : Type := {
  value : positive
}.

(** [Create.__init__], from the [value] that [parse_label_and_arg] found. *)
Definition Create_init (h : heap) (value : positive) : result (Create * heap) :=
  match h !! value with
  | None => Raise TypeError
  | Some obj =>
      if is_basestring obj then Raise TypeError
      else
        '(value, h) ← (if is_dict obj then call_items h value
                       else Ok (value, h));
        '(t, h) ← py_tuple h value;
        Ok ({| value := t |}, h)
  end.

(** The elements of the transform, as the constructor's contract has
    them: none for a string, the item pairs of a dict, the items of any
    other iterable. *)
Definition Create_elements (obj : pyval) : result (list pyval) :=
  match obj with
  | PyStr _ => Raise TypeError
  | PyDict entries => Ok (py_items entries)
  | _ => py_iter obj
  end.

(** ** Sample instances *)

(** Modelled from the spec: [transforms.window] and [transforms.trigger]
    are not at hand.  Two of the window functions the spec lists (global,
    fixed-interval) and two triggers (the default one, one that is not),
    compared by kind and parameters, to run the definitions on. *)
Inductive SampleWindowFn : Type :=
| SampleGlobalWindows
| SampleFixedWindows (size : Z).

Inductive SampleTriggerFn : Type :=
| SampleDefaultTrigger
| SampleAfterCount (count : Z).

#[global] Instance SampleWindowFn_eq_dec : EqDecision SampleWindowFn.
Proof. solve_decision. Defined.

#[global] Instance SampleTriggerFn_eq_dec : EqDecision SampleTriggerFn.
Proof. solve_decision. Defined.

#[global] Instance SampleWindowingModule
  : WindowingModule SampleWindowFn SampleTriggerFn :=
  {| GlobalWindows := SampleGlobalWindows;
     DefaultTrigger := SampleDefaultTrigger;
     windowfn_eq := λ a b, bool_decide (a = b);
     triggerfn_eq := λ a b, bool_decide (a = b) |}.

(** A partition function as in the snippets: by the remainder. *)
Definition SamplePartitionFn : PartitionFn Z unit unit unit :=
  CallableWrapperPartitionFn (λ element num_partitions _,
    Ok (element `mod` num_partitions)%Z).

(** The sum of a sequence of integers, if integers they all are; what
    [sum] computes, for the proofs. *)
Fixpoint int_sum (items : list pyval) : option Z :=
  match items with
  | [] => Some 0%Z
  | PyInt z :: rest => Z.add z <$> int_sum rest
  | _ :: _ => None
  end.

(** Modelled from the spec: the trigger driver and its state are not at
    hand.  A driver for the default trigger as the spec describes it:
    the values are buffered per window, each window that receives a value
    gets a timer, and when the timer of a window fires a pane with the
    buffered values is emitted and the buffer cleared.  A window is a
    pair [(start, end)]. *)
Record SampleState (V : Type) : Type := {
  buffers : list ((Z * Z) * list V);
  timers : list ((Z * Z) * (unit * Z))
}.
Arguments Build_SampleState {V} _ _.
Arguments buffers {V} _.
Arguments timers {V} _.

Fixpoint sample_buffer {V : Type} (w : Z * Z) (v : V)
    (bs : list ((Z * Z) * list V)) : list ((Z * Z) * list V) :=
  match bs with
  | [] => [(w, [v])]
  | (w', vs) :: rest =>
      if decide (w = w') then (w', vs ++ [v]) :: rest
      else (w', vs) :: sample_buffer w v rest
  end.

Definition sample_set_timer (w : Z * Z) (ts : list ((Z * Z) * (unit * Z)))
  : list ((Z * Z) * (unit * Z)) :=
  if decide (w ∈ ts.*1) then ts else ts ++ [(w, ((), w.2))].

Definition sample_process_elements {V : Type}
    (vs : list (WindowedValue V Z (Z * Z))) (state : SampleState V)
  : list ((Z * Z) * list V) * SampleState V :=
  ([], foldl (λ state wv,
         foldl (λ state w,
                  Build_SampleState
                    (sample_buffer w (wv_value wv) (buffers state))
                    (sample_set_timer w (timers state)))
               state (wv_windows wv))
       state vs).

Definition sample_process_timer {V : Type} (w : Z * Z) (state : SampleState V)
  : list ((Z * Z) * list V) * SampleState V :=
  (filter (λ b, b.1 = w) (buffers state),
   Build_SampleState (filter (λ b, b.1 ≠ w) (buffers state)) (timers state)).

#[global] Instance SampleTriggerModule (V : Type)
  : TriggerModule V (Z * Z) Z unit (SampleState V) unit :=
  {| window_end := λ w, w.2;
     InMemoryUnmergedState := Build_SampleState [] [];
     timers_pending := λ state,
       match timers state with [] => false | _ :: _ => true end;
     get_and_clear_timers := λ state,
       (timers state, Build_SampleState (buffers state) []);
     process_elements := λ _, sample_process_elements;
     process_timer := λ _ w _ _, sample_process_timer w |}.

(* ------------------------------------------------------------------ *)
(** ** More of [core.py]                                               *)
(* ------------------------------------------------------------------ *)

(** *** Exceptions outside [exn] *)

(** The exceptions of the builtins that the remaining code can meet:
    indexing an empty tuple, deleting or reading an attribute that is not
    there. *)
Inductive py_exn : Type :=
| Exn (e : exn)
| IndexError
| AttributeError.

Inductive outcome (A : Type) : Type :=
| Return (a : A)
| Throw (e : py_exn).
Arguments Return {A} a.
Arguments Throw {A} e.

#[global] Instance outcome_ret : MRet outcome := λ A a, Return a.
#[global] Instance outcome_bind : MBind outcome := λ A B f m,
  match m with
  | Return a => f a
  | Throw e => Throw e
  end.

Definition of_result {A : Type} (r : result A) : outcome A :=
  match r with
  | Ok a => Return a
  | Raise e => Throw (Exn e)
  end.

(** The truth value of a value ([if v:]). *)
Definition py_truthy (v : pyval) : bool :=
  match v with
  | PyNone => false
  | PyInt z => negb (z =? 0)%Z
  | PyStr s => negb (bool_decide (s = EmptyString))
  | PyTuple items | PyList items => negb (bool_decide (items = []))
  | PyDict entries => negb (bool_decide (entries = []))
  | PyObject _ => true
  end.

(** *** DoFnProcessContext as an object *)

(** The context as the runner keeps it: [label] and [state] are always
    there, [element], [timestamp] and [windows] are attributes that
    [set_element] sets and deletes. *)
Record ContextObject (E Timestamp Window State : Type) : Type := {
  label : string;
  state : State;
  attr_element : option E;
  attr_timestamp : option Timestamp;
  attr_windows : option (list Window)
}.
Arguments Build_ContextObject {E Timestamp Window State} _ _ _ _ _.
Arguments label {E Timestamp Window State} _.
Arguments state {E Timestamp Window State} _.
Arguments attr_element {E Timestamp Window State} _.
Arguments attr_timestamp {E Timestamp Window State} _.
Arguments attr_windows {E Timestamp Window State} _.

Section ContextObject.
Context {E Timestamp Window State : Type}.
Abbreviation Ctx := (ContextObject E Timestamp Window State).

(** [del self.element], [del self.timestamp], [del self.windows]:
    deleting an attribute that is not there is an [AttributeError]. *)
Definition del_element (self : Ctx) : outcome Ctx :=
  match attr_element self with
  | None => Throw AttributeError
  | Some _ =>
      Return (Build_ContextObject (label self) (state self) None
                (attr_timestamp self) (attr_windows self))
  end.

Definition del_timestamp (self : Ctx) : outcome Ctx :=
  match attr_timestamp self with
  | None => Throw AttributeError
  | Some _ =>
      Return (Build_ContextObject (label self) (state self)
                (attr_element self) None (attr_windows self))
  end.

Definition del_windows (self : Ctx) : outcome Ctx :=
  match attr_windows self with
  | None => Throw AttributeError
  | Some _ =>
      Return (Build_ContextObject (label self) (state self)
                (attr_element self) (attr_timestamp self) None)
  end.

(** [DoFnProcessContext.set_element]; [hasattr(self, 'element')] is
    whether the attribute is there. *)
Definition set_element (self : Ctx)
    (windowed_value : option (WindowedValue E Timestamp Window))
  : outcome Ctx :=
  match windowed_value with
  | None =>
      if bool_decide (is_Some (attr_element self)) then
        self ← del_element self;
        self ← del_timestamp self;
        del_windows self
      else Return self
  | Some windowed_value =>
      Return (Build_ContextObject (label self) (state self)
                (Some (wv_value windowed_value))
                (Some (wv_timestamp windowed_value))
                (Some (wv_windows windowed_value)))
  end.

(** [DoFnProcessContext.__init__] *)
Definition DoFnProcessContext_init (label : string)
    (element : option (WindowedValue E Timestamp Window)) (state : State)
  : outcome Ctx :=
  let self := Build_ContextObject label state None None None in
  match element with
  | None => Return self
  | Some _ => set_element self element
  end.

(** Reading [context.element], [context.timestamp] and [context.windows],
    as a [process] method does. *)
Definition read_context (self : Ctx)
  : outcome (DoFnProcessContext E Timestamp Window) :=
  match attr_element self, attr_timestamp self, attr_windows self with
  | Some e, Some t, Some ws =>
      Return {| element := e; timestamp := t; windows := ws |}
  | _, _, _ => Throw AttributeError
  end.

(** A run of [set_element] calls on one context. *)
Fixpoint set_elements (self : Ctx)
    (calls : list (option (WindowedValue E Timestamp Window)))
  : outcome Ctx :=
  match calls with
  | [] => Return self
  | windowed_value :: rest =>
      self ← set_element self windowed_value;
      set_elements self rest
  end.

(** The three attributes of a context, each there or not. *)
Definition attrs (self : Ctx)
  : option E * option Timestamp * option (list Window) :=
  (attr_element self, attr_timestamp self, attr_windows self).

(** The three attributes after [set_element(windowed_value)]. *)
Definition attrs_of (windowed_value : option (WindowedValue E Timestamp Window))
  : option E * option Timestamp * option (list Window) :=
  match windowed_value with
  | None => (None, None, None)
  | Some wv => (Some (wv_value wv), Some (wv_timestamp wv), Some (wv_windows wv))
  end.
End ContextObject.

(** *** Keyword arguments *)

(** [kwargs.pop(key, None)]: the value and what is left of the dict. *)
Definition kwargs_pop (key : string) (kwargs : gmap string pyval)
  : pyval * gmap string pyval :=
  (default PyNone (kwargs !! key), delete key kwargs).

(** *** ParDo.with_outputs *)

(** [_MultiParDo(do_transform, tags, main_tag)] *)
Record MultiParDo (P : Type) : Type := {
  _do_transform : P;
  _tags : list pyval;
  _main_tag : pyval
}.
Arguments Build_MultiParDo {P} _ _ _.
Arguments _do_transform {P} _.
Arguments _tags {P} _.
Arguments _main_tag {P} _.

Definition ParDo_with_outputs {P : Type} (self : P) (tags : list pyval)
    (main_kw : gmap string pyval) : result (MultiParDo P) :=
  let '(main_tag, main_kw) := kwargs_pop "main" main_kw in
  if bool_decide (main_kw ≠ ∅) then Raise ValueError
  else Ok (Build_MultiParDo self tags main_tag).

(** *** Flatten *)

Record Flatten : Type := {
  Flatten_label : pyval;
  pipeline : pyval
}.

(** [Flatten.__init__] *)
Definition Flatten_init (label : pyval) (kwargs : gmap string pyval)
  : result Flatten :=
  let '(pipeline, kwargs) := kwargs_pop "pipeline" kwargs in
  if bool_decide (kwargs ≠ ∅) then Raise ValueError
  else Ok {| Flatten_label := label; pipeline := pipeline |}.

(** [Flatten._extract_input_pvalues]: the [TypeError] of [tuple] becomes
    a [ValueError]; the tuple is returned twice. *)
Definition Flatten_extract_input_pvalues (pvalueish : pyval)
  : result (pyval * pyval) :=
  match py_iter pvalueish with
  | Raise TypeError => Raise ValueError
  | Raise e => Raise e
  | Ok items => let pvalueish := PyTuple items in Ok (pvalueish, pvalueish)
  end.

(** *** FlatMap, Map, Filter *)

(** What a callable computes, as a function of its positional
    arguments. *)
Definition pycallable : Type := list pyval → result pyval.

(** A function object: what it computes and, when it has been given
    one, its attribute [_argspec_fn]. *)
#[warnings="-register-all"] Inductive pyfunction : Type :=
| PyFunction (call : pycallable) (argspec_fn : option pyfunction).

Definition call (f : pyfunction) : pycallable :=
  match f with PyFunction c _ => c end.

Definition _argspec_fn (f : pyfunction) : option pyfunction :=
  match f with PyFunction _ a => a end.

(** An argument of a transform's constructor: a value or a callable. *)
Inductive pyarg : Type :=
| ArgValue (v : pyval)
| ArgCallable (f : pyfunction).

(** [callable(x)] *)
Definition is_callable (x : pyarg) : bool :=
  match x with
  | ArgCallable _ => true
  | ArgValue _ => false
  end.

(** [isinstance(x, str)] and [x is None] *)
Definition is_str (x : pyarg) : bool :=
  match x with
  | ArgValue (PyStr _) => true
  | _ => false
  end.

Definition is_None (x : pyarg) : bool :=
  match x with
  | ArgValue PyNone => true
  | _ => false
  end.

(** [CallableWrapperDoFn] *)
Record CallableWrapperDoFn : Type := {
  _fn : pyfunction
}.

(** [CallableWrapperDoFn.__init__] *)
Definition CallableWrapperDoFn_init (fn : pyarg) : result CallableWrapperDoFn :=
  match fn with
  | ArgCallable f => Ok {| _fn := f |}
  | ArgValue _ => Raise TypeError
  end.

(** [CallableWrapperDoFn.process]: the value that [fn] returns, an
    iterable of outputs. *)
Definition CallableWrapperDoFn_process {Timestamp Window : Type}
    (self : CallableWrapperDoFn)
    (context : DoFnProcessContext pyval Timestamp Window) (args : list pyval)
  : result pyval :=
  call (_fn self) (element context :: args).

(** [CallableWrapperDoFn.process_argspec_fn]:
    [getattr(self._fn, '_argspec_fn', self._fn)]. *)
Definition CallableWrapperDoFn_process_argspec_fn (self : CallableWrapperDoFn)
  : pyfunction :=
  default (_fn self) (_argspec_fn (_fn self)).

(** The call [ParDo(label, dofn, *args)] that [FlatMap] ends with, kept as
    its arguments: the constructor of [PTransformWithSideInputs] is not at
    hand. *)
Record ParDoCall : Type := {
  ParDo_label : pyval;
  ParDo_fn : CallableWrapperDoFn;
  ParDo_args : list pyarg
}.

(** [label, fn, args = fn_or_label, args[0], args[1:]] *)
Definition shift_label (fn_or_label : pyarg) (args : list pyarg)
  : outcome (pyarg * pyarg * list pyarg) :=
  match args with
  | [] => Throw IndexError
  | fn :: rest => Return (fn_or_label, fn, rest)
  end.

(** The label, a value by the tests on it, as the [pyval] it is. *)
Definition label_value (label : pyarg) : pyval :=
  match label with
  | ArgValue v => v
  | ArgCallable _ => PyNone
  end.

(** [FlatMap] *)
Definition FlatMap (fn_or_label : pyarg) (args : list pyarg)
  : outcome ParDoCall :=
  '(label, fn, args) ←
    (if is_None fn_or_label || is_str fn_or_label
     then shift_label fn_or_label args
     else Return (ArgValue PyNone, fn_or_label, args));
  if negb (is_callable fn) then Throw (Exn TypeError)
  else
    dofn ← of_result (CallableWrapperDoFn_init fn);
    Return {| ParDo_label := label_value label;
              ParDo_fn := dofn;
              ParDo_args := args |}.

(** The [wrapper] of [Map]: [lambda x, *args, **kwargs: [fn(x, *args, **kwargs)]].
    A lambda called with no positional argument is a [TypeError]. *)
Definition Map_wrapper (fn : pyfunction) : pycallable :=
  λ positional,
    match positional with
    | [] => Raise TypeError
    | x :: args => r ← call fn (x :: args); Ok (PyList [r])
    end.

(** The [wrapper] of [Filter]:
    [lambda x, *args, **kwargs: [x] if fn(x, *args, **kwargs) else []]. *)
Definition Filter_wrapper (fn : pyfunction) : pycallable :=
  λ positional,
    match positional with
    | [] => Raise TypeError
    | x :: args =>
        r ← call fn (x :: args);
        Ok (if py_truthy r then PyList [x] else PyList [])
    end.

(** [Map]: the label is taken off when it is a string, the callable is
    checked, and [FlatMap] is called with the wrapper, which remembers
    [fn] as its [_argspec_fn].  (The type hints copied onto the wrapper
    belong to the typehints module and do not change what the wrapper
    computes.) *)
Definition Map (fn_or_label : pyarg) (args : list pyarg) : outcome ParDoCall :=
  '(label, fn, args) ←
    (if is_str fn_or_label
     then shift_label fn_or_label args
     else Return (ArgValue PyNone, fn_or_label, args));
  match fn with
  | ArgValue _ => Throw (Exn TypeError)
  | ArgCallable fn =>
      let wrapper := PyFunction (Map_wrapper fn) (Some fn) in
      FlatMap label (ArgCallable wrapper :: args)
  end.

(** [Filter], in the same way. *)
Definition Filter (fn_or_label : pyarg) (args : list pyarg)
  : outcome ParDoCall :=
  '(label, fn, args) ←
    (if is_str fn_or_label
     then shift_label fn_or_label args
     else Return (ArgValue PyNone, fn_or_label, args));
  match fn with
  | ArgValue _ => Throw (Exn TypeError)
  | ArgCallable fn =>
      let wrapper := PyFunction (Filter_wrapper fn) (Some fn) in
      FlatMap label (ArgCallable wrapper :: args)
  end.

(** *** CombineGlobally *)

(** What is given as [fn]: a [CombineFn], a callable, or something else. *)
Inductive combine_arg : Type :=
| FnCombineFn (cf : CombineFn (list pyval) pyval pyval pyval)
| FnCallable (f : callable)
| FnOther (v : pyval).

(** [CombineFn.from_callable], with the check of
    [CallableWrapperCombineFn.__init__]. *)
Definition CombineFn_from_callable (fn : combine_arg)
  : result (CombineFn (list pyval) pyval pyval pyval) :=
  match fn with
  | FnCallable f => Ok (CallableWrapperCombineFn f)
  | FnCombineFn _ | FnOther _ => Raise TypeError
  end.

(** [fn if isinstance(fn, CombineFn) else CombineFn.from_callable(fn)],
    which is [CombineFn.maybe_from_callable] and [CombineValues.make_fn]. *)
Definition CombineFn_maybe_from_callable (fn : combine_arg)
  : result (CombineFn (list pyval) pyval pyval pyval) :=
  match fn with
  | FnCombineFn cf => Ok cf
  | _ => CombineFn_from_callable fn
  end.

Record CombineGlobally : Type := {
  CombineGlobally_label : pyval;
  CombineGlobally_fn : combine_arg;
  CombineGlobally_args : list pyval;
  has_defaults : bool;
  as_view : bool
}.

(** [with_defaults], [without_defaults], [as_singleton_view]: a copy with
    one attribute replaced. *)
Definition with_defaults (self : CombineGlobally) (has_defaults : bool)
  : CombineGlobally :=
  {| CombineGlobally_label := CombineGlobally_label self;
     CombineGlobally_fn := CombineGlobally_fn self;
     CombineGlobally_args := CombineGlobally_args self;
     has_defaults := has_defaults;
     as_view := as_view self |}.

Definition without_defaults (self : CombineGlobally) : CombineGlobally :=
  with_defaults self false.

Definition as_singleton_view (self : CombineGlobally) : CombineGlobally :=
  {| CombineGlobally_label := CombineGlobally_label self;
     CombineGlobally_fn := CombineGlobally_fn self;
     CombineGlobally_args := CombineGlobally_args self;
     has_defaults := has_defaults self;
     as_view := true |}.

(** What [CombineGlobally.apply] returns, over the pipeline [combined] of
    [KeyWithVoid], [CombinePerKey] and [UnKey]:
    [combined] itself; the view [AsSingleton(combined, default_value)],
    where no default value stands for [_NO_DEFAULT]; or the pipeline that
    injects that view into a single [None]. *)
Inductive CombineGlobally_result (P : Type) : Type :=
| ReturnCombined (combined : P)
| ReturnView (combined : P) (default_value : option pyval)
| ReturnInjected (combined : P) (default_value : option pyval).
Arguments ReturnCombined {P} _.
Arguments ReturnView {P} _ _.
Arguments ReturnInjected {P} _ _.

(** [CombineGlobally.apply], from [combined] on; [windowfn_ne] is the [!=]
    of window functions and [pcoll_windowfn] is
    [pcoll.windowing.windowfn]. *)
Definition CombineGlobally_apply {P WindowFn TriggerFn : Type}
    `{!WindowingModule WindowFn TriggerFn}
    (windowfn_ne : WindowFn → WindowFn → bool)
    (self : CombineGlobally) (pcoll_windowfn : WindowFn) (combined : P)
  : result (CombineGlobally_result P) :=
  if negb (has_defaults self) && negb (as_view self) then
    Ok (ReturnCombined combined)
  else
    default_value ←
      (if has_defaults self then
         combine_fn ← CombineFn_maybe_from_callable (CombineGlobally_fn self);
         d ← CombineFn_apply combine_fn [] (CombineGlobally_args self);
         Ok (Some d)
       else Ok None);
    if as_view self then Ok (ReturnView combined default_value)
    else if windowfn_ne pcoll_windowfn GlobalWindows then Raise ValueError
    else Ok (ReturnInjected combined default_value).

(** *** Create.get_windowing *)

Definition Create_get_windowing {WindowFn TriggerFn : Type}
    `{!WindowingModule WindowFn TriggerFn}
  : result (Windowing WindowFn TriggerFn) :=
  Windowing_init GlobalWindows None None.

(** *** The product reducer of the combiners' test *)

(** [a * b] on the values at hand: integers multiply, and an integer
    repeats a string, a tuple or a list (not at all when it is negative);
    anything else is a [TypeError]. *)
Fixpoint py_repeat_string (n : nat) (s : string) : string :=
  match n with
  | O => EmptyString
  | S n => String.append s (py_repeat_string n s)
  end.

Definition py_repeat_items (n : nat) (items : list pyval) : list pyval :=
  concat (replicate n items).

Definition py_mul (a b : pyval) : result pyval :=
  match a, b with
  | PyInt x, PyInt y => Ok (PyInt (x * y))
  | PyInt n, PyStr s | PyStr s, PyInt n =>
      Ok (PyStr (py_repeat_string (Z.to_nat n) s))
  | PyInt n, PyTuple items | PyTuple items, PyInt n =>
      Ok (PyTuple (py_repeat_items (Z.to_nat n) items))
  | PyInt n, PyList items | PyList items, PyInt n =>
      Ok (PyList (py_repeat_items (Z.to_nat n) items))
  | _, _ => Raise TypeError
  end.

(** The loop [for v in values: result *= v] of [multiply], from the
    [result] so far. *)
Fixpoint multiply_loop (so_far : pyval) (values : list pyval) : result pyval :=
  match values with
  | [] => Ok so_far
  | v :: rest => so_far ← py_mul so_far v; multiply_loop so_far rest
  end.

(** [multiply] of [test_combine_per_key_with_custom_callable]; it takes
    the values and nothing else. *)
Definition multiply : callable :=
  λ values args,
    match args with
    | [] => multiply_loop (PyInt 1) values
    | _ :: _ => Raise TypeError
    end.

(* ================================================================== *)
(** * Part II: properties                                              *)
(* ================================================================== *)

(** ** The result monad *)

Lemma result_bind_Ok {A B : Type} (m : result A) (f : A → result B) (b : B) :
  m ≫= f = Ok b ↔ ∃ a, m = Ok a ∧ f a = Ok b.
Proof.
  destruct m as [a|e]; simpl.
  - split; [eauto | intros (a' & [= <-] & ?); done].
  - split; [done | intros (a' & ? & ?); done].
Qed.

Lemma result_bind_assoc {A B C : Type} (m : result A)
    (f : A → result B) (g : B → result C) :
  (m ≫= f) ≫= g = m ≫= (λ a, f a ≫= g).
Proof. by destruct m. Qed.

Lemma result_bind_ret {A : Type} (m : result A) : m ≫= Ok = m.
Proof. by destruct m. Qed.

(** ** Slices *)

Lemma py_slice_step_short {A : Type} (skip step : nat) (l : list A) :
  length l ≤ skip → py_slice_step skip step l = [].
Proof.
  revert skip. induction l as [|x t IH]; intros skip Hlen; [done|].
  destruct skip as [|s]; simpl in *; [lia|]. apply IH. lia.
Qed.

(** The slice holds the items at [skip], [skip + step], [skip + 2 step]... *)
Lemma py_slice_step_lookup {A : Type} (skip step i : nat) (l : list A) :
  1 ≤ step →
  py_slice_step skip step l !! i = l !! (skip + i * step).
Proof.
  intros Hstep. revert skip i.
  induction l as [|x t IH]; intros skip i; [done|].
  destruct skip as [|s]; simpl.
  - destruct i as [|i]; [done|]. simpl. rewrite IH.
    replace (step + i * step) with (S (step - 1 + i * step)) by lia. done.
  - apply IH.
Qed.

Lemma py_slice_step_3_perm {A : Type} (l : list A) :
  py_slice_step 0 3 l ++ py_slice_step 1 3 l ++ py_slice_step 2 3 l ≡ₚ l.
Proof.
  induction l as [|x t IH]; [done|]. simpl.
  constructor. rewrite <- IH at 4.
  rewrite (Permutation_app_comm (py_slice_step 2 3 t)).
  by rewrite <- !(assoc_L (++)).
Qed.

Lemma round_robin_batches_concat {A : Type} (l : list A) :
  concat (round_robin_batches l (py_range 3)) ≡ₚ l.
Proof.
  rewrite <- (py_slice_step_3_perm l) at 2.
  unfold py_range. simpl.
  repeat case_bool_decide; simpl;
    rewrite ?app_nil_r, ?(py_slice_step_short 0), ?(py_slice_step_short 1),
      ?(py_slice_step_short 2) by lia; simpl; rewrite ?app_nil_r; done.
Qed.

(** ** CombineFn *)

Lemma fill_accumulators_mapM {Args In Acc Out : Type}
    (cf : CombineFn Args In Acc Out) (elements : list In) (args : Args)
    (ks : list nat) :
  fill_accumulators cf elements args ks
  = mapM (accumulate cf args) (round_robin_batches elements ks).
Proof.
  induction ks as [|k ks IH]; simpl; [done|].
  case_bool_decide; [done|]. simpl. rewrite IH. unfold accumulate.
  by rewrite result_bind_assoc.
Qed.

(** C4: [CombineFn.apply] is the composition of [create_accumulator],
    [add_inputs] and [extract_output], each one's exception passed on and
    nothing else done. *)
Theorem CombineFn_apply_is_single_shot {Args In Acc Out : Type}
    (self : CombineFn Args In Acc Out) (es : list In) (args : Args) :
  CombineFn_apply self es args =
  match create_accumulator self args with
  | Raise e => Raise e
  | Ok a0 =>
      match add_inputs self a0 es args with
      | Raise e => Raise e
      | Ok a => extract_output self a args
      end
  end.
Proof.
  unfold CombineFn_apply.
  destruct (create_accumulator self args) as [a0|e]; simpl; [|done].
  by destruct (add_inputs self a0 es args).
Qed.

(** C1: for an associative, commutative reduction the three-way split of
    [CombineValuesDoFn.process] gives the result of [apply] on all the
    values, which is what the [runtime_type_check] branch returns. *)
Theorem CombineValuesDoFn_process_refines_apply {Args In Acc Out K : Type}
    (cf : CombineFn Args In Acc Out) (args : Args) (k : K) (vs : list In) :
  AssocCommReduction cf args →
  let split := {| combinefn := cf; runtime_type_check := false |} in
  let whole := {| combinefn := cf; runtime_type_check := true |} in
  CombineValuesDoFn_process split (k, vs) args
    = (r ← CombineFn_apply cf vs args; Ok [(k, r)])
  ∧ CombineValuesDoFn_process whole (k, vs) args
    = (r ← CombineFn_apply cf vs args; Ok [(k, r)])
  ∧ ∀ r, CombineFn_apply cf vs args = Ok r →
         CombineValuesDoFn_process split (k, vs) args = Ok [(k, r)].
Proof.
  intros [Hcomm Hmerge] split whole.
  assert (CombineValuesDoFn_process split (k, vs) args
          = (r ← CombineFn_apply cf vs args; Ok [(k, r)])) as Hsplit.
  { unfold CombineValuesDoFn_process, split.
    cbn [runtime_type_check combinefn fst snd].
    rewrite fill_accumulators_mapM, <- result_bind_assoc, Hmerge.
    rewrite (Hcomm _ vs (round_robin_batches_concat vs)).
    unfold CombineFn_apply, accumulate.
    destruct (create_accumulator cf args) as [a0|e]; simpl; [|done].
    by destruct (add_inputs cf a0 vs args). }
  split_and!; [done|done|].
  intros r Hr. by rewrite Hsplit, Hr.
Qed.

(** *** Reductions over a commutative monoid satisfy the contract *)

Section monoid_reduction.
Context {Args In Acc Out : Type}.
Variables (cf : CombineFn Args In Acc Out) (args : Args).
Variables (unit : Acc) (op : Acc → Acc → Acc) (inj : In → Acc).

Hypothesis op_assoc : ∀ a b c, op a (op b c) = op (op a b) c.
Hypothesis op_comm : ∀ a b, op a b = op b a.
Hypothesis op_unit : ∀ a, op unit a = a.

Hypothesis cf_create : create_accumulator cf args = Ok unit.
Hypothesis cf_add : ∀ a p,
  add_inputs cf a p args = Ok (foldl (λ a x, op a (inj x)) a p).
Hypothesis cf_merge : ∀ accs,
  merge_accumulators cf accs args = Ok (foldr op unit accs).

Let fold_in := foldl (λ a x, op a (inj x)).

Lemma fold_in_op a p : fold_in a p = op a (fold_in unit p).
Proof.
  revert a. induction p as [|x t IH]; intros a; simpl.
  - by rewrite op_comm, op_unit.
  - rewrite (IH (op a (inj x))), (IH (op unit (inj x))).
    by rewrite op_unit, op_assoc.
Qed.

Lemma fold_in_perm a p q : p ≡ₚ q → fold_in a p = fold_in a q.
Proof.
  intros Hpq. revert a.
  induction Hpq as [|x p q _ IH|x y p|p q r _ IH1 _ IH2]; intros a; simpl.
  - done.
  - apply IH.
  - f_equal. by rewrite <- !op_assoc, (op_comm (inj y)).
  - by rewrite IH1.
Qed.

Lemma accumulate_fold_in p : accumulate cf args p = Ok (fold_in unit p).
Proof.
  unfold accumulate. rewrite cf_create. simpl. apply cf_add.
Qed.

Lemma mapM_accumulate_fold_in batches :
  mapM (accumulate cf args) batches = Ok (fold_in unit <$> batches).
Proof.
  induction batches as [|b bs IH]; simpl; [done|].
  by rewrite accumulate_fold_in, IH.
Qed.

Lemma foldr_fold_in_concat batches :
  foldr op unit (fold_in unit <$> batches) = fold_in unit (concat batches).
Proof.
  induction batches as [|b bs IH]; [done|].
  rewrite fmap_cons. cbn [foldr concat]. rewrite IH. symmetry.
  etransitivity; [apply foldl_app|]. apply fold_in_op.
Qed.

Lemma monoid_AssocCommReduction : AssocCommReduction cf args.
Proof.
  split.
  - intros p q Hpq. rewrite !accumulate_fold_in.
    f_equal. by apply fold_in_perm.
  - intros batches. rewrite mapM_accumulate_fold_in. simpl.
    by rewrite cf_merge, foldr_fold_in_concat, accumulate_fold_in.
Qed.
End monoid_reduction.

Lemma default_add_inputs_pure {Args In Acc : Type} (f : Acc → In → Acc)
    (a : Acc) (p : list In) (args : Args) :
  default_add_inputs (λ a x _, Ok (f a x)) a p args = Ok (foldl f a p).
Proof. revert a. induction p as [|x t IH]; intros a; simpl; [done|apply IH]. Qed.

Lemma MonoidCombineFn_AssocCommReduction {Args In Acc Out : Type}
    (unit : Acc) (op : Acc → Acc → Acc) (inj : In → Acc)
    (out : Acc → result Out) (args : Args) :
  (∀ a b c, op a (op b c) = op (op a b) c) →
  (∀ a b, op a b = op b a) →
  (∀ a, op unit a = a) →
  AssocCommReduction (MonoidCombineFn unit op inj out) args.
Proof.
  intros Hassoc Hcomm Hunit.
  apply (monoid_AssocCommReduction _ _ unit op inj); try done.
  intros a p. apply (default_add_inputs_pure (λ a x, op a (inj x))).
Qed.

Lemma AverageFn_AssocCommReduction : AssocCommReduction AverageFn ().
Proof.
  apply (monoid_AssocCommReduction _ _ (0, 0)%Z
           (λ a b, (a.1 + b.1, a.2 + b.2)%Z) (λ x, (x, 1%Z))).
  - intros [??] [??] [??]; simpl; f_equal; lia.
  - intros [??] [??]; simpl; f_equal; lia.
  - by intros [??].
  - done.
  - intros a p. simpl. revert a.
    induction p as [|x t IH]; intros [s c]; simpl; [done|]. by rewrite IH.
  - intros accs. simpl. f_equal.
    induction accs as [|[s c] accs IH]; simpl; [done|].
    by rewrite <- IH.
Qed.

Lemma CombineValuesDoFn_process_refines_apply_witness :
  CombineValuesDoFn_process
    {| combinefn := AverageFn; runtime_type_check := false |}
    ("cat", [1; 5; 9; 1]%Z) () = Ok [("cat", Some 4%Z)].
Proof.
  apply (CombineValuesDoFn_process_refines_apply AverageFn () "cat"
           [1; 5; 9; 1]%Z AverageFn_AssocCommReduction).
  reflexivity.
Defined.

(** ** CallableWrapperCombineFn *)

Lemma is_EMPTY_true (v : pyval) : is_EMPTY v = true ↔ v = EMPTY.
Proof.
  unfold EMPTY. destruct v; simpl; try (split; [done|congruence]).
  rewrite bool_decide_eq_true. split; congruence.
Qed.

Lemma is_EMPTY_false (v : pyval) : is_EMPTY v = false ↔ v ≠ EMPTY.
Proof.
  rewrite <- is_EMPTY_true. destruct (is_EMPTY v); split; congruence.
Qed.

(** C3: the four operations of [CallableWrapperCombineFn] in terms of the
    wrapped [fn]: the accumulator starts as the sentinel [EMPTY]; adding to
    [EMPTY] reduces the elements, adding to another accumulator reduces the
    accumulator followed by the elements; merging reduces the accumulators;
    the output of [EMPTY] is [fn] on nothing (0 for [sum]) and any other
    accumulator is its own output. *)
Theorem CallableWrapperCombineFn_operations (fn : callable)
    (a : pyval) (es accs args : list pyval) :
  let w := CallableWrapperCombineFn fn in
  create_accumulator w args = Ok EMPTY
  ∧ add_inputs w EMPTY es args = fn es args
  ∧ (a ≠ EMPTY → add_inputs w a es args = fn (a :: es) args)
  ∧ merge_accumulators w accs args = fn accs args
  ∧ extract_output w EMPTY args = fn [] []
  ∧ (a0 ← create_accumulator w args; extract_output w a0 args) = fn [] []
  ∧ extract_output (CallableWrapperCombineFn py_sum) EMPTY args = Ok (PyInt 0)
  ∧ (a ≠ EMPTY → extract_output w a args = Ok a).
Proof.
  simpl. unfold CallableWrapperCombineFn_add_inputs.
  split_and!; try done.
  - intros Ha%is_EMPTY_false. by rewrite Ha.
  - intros Ha%is_EMPTY_false. by rewrite Ha.
Qed.

Lemma CallableWrapperCombineFn_operations_witness :
  let w := CallableWrapperCombineFn py_sum in
  add_inputs w (PyInt 3) [PyInt 4; PyInt 5] [] = Ok (PyInt 12)
  ∧ extract_output w (PyInt 12) [] = Ok (PyInt 12).
Proof.
  pose proof (CallableWrapperCombineFn_operations py_sum (PyInt 3)
                [PyInt 4; PyInt 5] [] []) as (_ & _ & Hadd & _).
  pose proof (CallableWrapperCombineFn_operations py_sum (PyInt 12)
                [] [] []) as (_ & _ & _ & _ & _ & _ & _ & Hout).
  split; [apply Hadd | apply Hout]; discriminate.
Defined.

(** C9: without side inputs [add_input] of the wrapper raises [TypeError]
    whatever the accumulator and the element: [[element]] takes the place
    of the accumulator in the call of [add_inputs] and nothing that of the
    elements.  With side inputs the call may go through, yet the result
    never depends on the accumulator handed to [add_input]. *)
Theorem CallableWrapperCombineFn_add_input_raises (fn : callable)
    (a e : pyval) :
  let w := CallableWrapperCombineFn fn in
  add_input w a e [] = Raise TypeError
  ∧ (∀ args, add_input w a e args = call_add_inputs fn (PyList [e] :: args))
  ∧ (∀ a' args, add_input w a e args = add_input w a' e args).
Proof. done. Qed.

(** With one side input or more, the first of them is taken for the
    elements and [[element]] for the accumulator. *)
Lemma CallableWrapperCombineFn_add_input_shifted (fn : callable)
    (a e x : pyval) (args : list pyval) :
  add_input (CallableWrapperCombineFn fn) a e (x :: args)
  = (es ← py_iter x; fn (PyList [e] :: es) args).
Proof. done. Qed.

(** ** GroupByKey.ReifyWindows *)

Section ReifyWindows.
Context {Timestamp Window : Type}.
Implicit Types (t : Timestamp) (ws : list Window).

Lemma ReifyWindows_process_pair k v t ws :
  ReifyWindows_process
    {| element := PyTuple [k; v]; timestamp := t; windows := ws |}
  = Ok [(k, Build_WindowedValue v t ws)].
Proof. done. Qed.

(** Anything that produces two items is taken for a pair. *)
Lemma ReifyWindows_process_two_items x k v t ws :
  py_iter x = Ok [k; v] →
  ReifyWindows_process {| element := x; timestamp := t; windows := ws |}
  = Ok [(k, Build_WindowedValue v t ws)].
Proof.
  intros Hx. unfold ReifyWindows_process, py_unpack2. simpl. by rewrite Hx.
Qed.

Lemma ReifyWindows_process_not_iterable x t ws :
  py_iter x = Raise TypeError →
  ReifyWindows_process {| element := x; timestamp := t; windows := ws |}
  = Raise TypeCheckError.
Proof.
  intros Hx. unfold ReifyWindows_process, py_unpack2. simpl. by rewrite Hx.
Qed.

(** An iterable of another length escapes the [except TypeError]. *)
Lemma ReifyWindows_process_wrong_length x items t ws :
  py_iter x = Ok items → length items ≠ 2 →
  ReifyWindows_process {| element := x; timestamp := t; windows := ws |}
  = Raise ValueError.
Proof.
  intros Hx Hlen. unfold ReifyWindows_process, py_unpack2. simpl.
  rewrite Hx. simpl. by destruct items as [|? [|? [|]]].
Qed.

(** C6: on the three-component tuple [(1, 2, 3)], which is no key/value
    pair, [ReifyWindows.process] raises [ValueError], not the
    [TypeCheckError] that reports a wrong shape. *)
Theorem ReifyWindows_process_triple_ValueError t ws :
  ReifyWindows_process
    {| element := PyTuple [PyInt 1; PyInt 2; PyInt 3];
       timestamp := t; windows := ws |}
  = Raise ValueError.
Proof. done. Qed.
End ReifyWindows.

(** ** GroupByKey.GroupAlsoByWindow *)

Section GroupAlsoByWindow_panes.
Context {K V Window Timestamp Tag State Windowing : Type}.
Context `{!TriggerModule V Window Timestamp Tag State Windowing}.

Implicit Types (k : K) (windowing : Windowing) (state : State).

Lemma pane_of_is_pane k outs : Forall (is_pane k) (pane_of k <$> outs).
Proof.
  apply Forall_fmap, Forall_forall. intros [w values] _. by exists w, values.
Qed.

Lemma fire_timers_panes windowing k timers state :
  Forall (is_pane k) (fire_timers windowing k timers state).1.
Proof.
  revert state.
  induction timers as [|[w [tg ts]] rest IH]; intros state; simpl.
  - constructor.
  - destruct (process_timer windowing w ts tg state) as [outs state1].
    specialize (IH state1).
    destruct (fire_timers windowing k rest state1) as [more state2].
    simpl in *. apply Forall_app. split; [apply pane_of_is_pane | done].
Qed.

Lemma drain_timers_panes fuel windowing k state :
  Forall (is_pane k) (drain_timers fuel windowing k state).1.
Proof.
  revert state. induction fuel as [|fuel IH]; intros state; simpl.
  - constructor.
  - destruct (timers_pending state); [|constructor].
    destruct (get_and_clear_timers state) as [timers state1].
    pose proof (fire_timers_panes windowing k timers state1) as Hfire.
    destruct (fire_timers windowing k timers state1) as [panes state2].
    specialize (IH state2).
    destruct (drain_timers fuel windowing k state2) as [more finished].
    simpl in *. apply Forall_app. by split.
Qed.

(** More rounds of the timer loop only add panes at the end. *)
Lemma drain_timers_prefix fuel windowing k state :
  (drain_timers fuel windowing k state).1
    `prefix_of` (drain_timers (S fuel) windowing k state).1.
Proof.
  revert state. induction fuel as [|fuel IH]; intros state.
  - apply prefix_nil.
  - cbn [drain_timers]. destruct (timers_pending state); [|done].
    destruct (get_and_clear_timers state) as [timers state1].
    destruct (fire_timers windowing k timers state1) as [panes state2].
    specialize (IH state2). cbn [drain_timers] in IH.
    destruct (drain_timers fuel windowing k state2) as [more finished].
    destruct (timers_pending state2).
    + destruct (get_and_clear_timers state2) as [timers' state3].
      destruct (fire_timers windowing k timers' state3) as [panes' state4].
      destruct (drain_timers fuel windowing k state4) as [more' finished'].
      simpl in *. by apply prefix_app.
    + simpl in *. by apply prefix_app.
Qed.

(** Once the loop has come to its end, more fuel changes nothing. *)
Lemma drain_timers_finished fuel windowing k state panes :
  drain_timers fuel windowing k state = (panes, true) →
  drain_timers (S fuel) windowing k state = (panes, true).
Proof.
  revert state panes. induction fuel as [|fuel IH]; intros state panes.
  - simpl. destruct (timers_pending state); [done|]. by intros [= <-].
  - cbn [drain_timers]. destruct (timers_pending state); [|done].
    destruct (get_and_clear_timers state) as [timers state1].
    destruct (fire_timers windowing k timers state1) as [ps state2].
    specialize (IH state2). cbn [drain_timers] in IH.
    destruct (drain_timers fuel windowing k state2) as [more finished].
    intros [= <- ->]. by rewrite (IH more eq_refl).
Qed.


(** C7: every pane that [GroupAlsoByWindow.process] yields for key [k],
    from the buffered elements or from a timer, has the value
    [(k, values)], the end of its window as timestamp, and that window
    alone as its windows. *)
Theorem GroupAlsoByWindow_process_panes windowing k vs fuel :
  Forall (is_pane k) (GroupAlsoByWindow_process windowing (k, vs) fuel).1.
Proof.
  unfold GroupAlsoByWindow_process.
  destruct (process_elements windowing vs InMemoryUnmergedState)
    as [outs state].
  pose proof (drain_timers_panes fuel windowing k state) as Hdrain.
  destruct (drain_timers fuel windowing k state) as [more finished].
  simpl in *. apply Forall_app. split; [apply pane_of_is_pane | done].
Qed.
End GroupAlsoByWindow_panes.

(** ** Partition *)

Lemma Z_to_int_not_nil (z : Z) :
  Z.to_int z ≠ Decimal.Pos Decimal.Nil ∧ Z.to_int z ≠ Decimal.Neg Decimal.Nil.
Proof.
  split; intros Hz; pose proof (DecimalZ.of_to z) as Hof;
    rewrite Hz in Hof; simpl in Hof; subst z; discriminate Hz.
Qed.

(** Distinct integers have distinct decimal strings. *)
Lemma py_str_int_inj (a b : Z) : py_str_int a = py_str_int b → a = b.
Proof.
  unfold py_str_int. intros Heq.
  apply (f_equal NilZero.int_of_string) in Heq.
  rewrite !NilZero.isi in Heq by apply Z_to_int_not_nil.
  injection Heq as Heq. apply (f_equal Z.of_int) in Heq.
  by rewrite !DecimalZ.of_to in Heq.
Qed.

(** An index in range is tagged with one of the tags that
    [Partition.apply] declares. *)
Lemma py_str_int_in_Partition_tags (p : Z) (n : nat) :
  (0 ≤ p < Z.of_nat n)%Z → py_str_int p ∈ Partition_tags n.
Proof.
  intros Hp. unfold Partition_tags, py_range.
  apply list_elem_of_fmap. exists (Z.to_nat p). split.
  - f_equal. lia.
  - apply elem_of_seq. lia.
Qed.

(** C8: when [partition_for] returns the index [p],
    [ApplyPartitionFnFn.process] raises [ValueError] exactly when [p] is
    outside [0, n), and otherwise yields one [SideOutputValue] with the
    decimal string of [p] as tag and the element as value. *)
Theorem ApplyPartitionFnFn_process_range {E Timestamp Window Args : Type}
    (context : DoFnProcessContext E Timestamp Window)
    (partitionfn : PartitionFn E Timestamp Window Args) (n : Z) (args : Args)
    (p : Z) :
  partition_for partitionfn context n args = Ok p →
  (ApplyPartitionFnFn_process context partitionfn n args = Raise ValueError
   ↔ ¬ (0 ≤ p < n)%Z)
  ∧ ((0 ≤ p < n)%Z →
     ApplyPartitionFnFn_process context partitionfn n args
     = Ok [Build_SideOutputValue (py_str_int p) (element context)]).
Proof.
  intros Hp. unfold ApplyPartitionFnFn_process. rewrite Hp. simpl.
  destruct (0 <=? p)%Z eqn:H0; destruct (p <? n)%Z eqn:Hn; simpl;
    (split; [split; [try done; lia | try done; lia] | try done; lia]).
Qed.

Lemma ApplyPartitionFnFn_process_range_witness :
  ApplyPartitionFnFn_process
    {| element := 17%Z; timestamp := (); windows := [] |}
    SamplePartitionFn 3 ()
  = Ok [Build_SideOutputValue "2" 17%Z].
Proof.
  apply (ApplyPartitionFnFn_process_range
           {| element := 17%Z; timestamp := (); windows := [] |}
           SamplePartitionFn 3 () 2 eq_refl).
  lia.
Defined.

(** ** Windowing *)

Section Windowing.
Context {WindowFn TriggerFn : Type} `{!WindowingModule WindowFn TriggerFn}.

(** C2: with the trigger and the accumulation mode both omitted the
    construction succeeds, with the default trigger and [DISCARDING];
    with a trigger that is not the default one and no accumulation mode
    it raises [ValueError].  ([DefaultTrigger() == DefaultTrigger()] is
    taken to hold.) *)
Theorem Windowing_init_omitted_mode (wf : WindowFn) :
  triggerfn_eq DefaultTrigger DefaultTrigger = true →
  (∃ w, Windowing_init wf None None = Ok w
        ∧ windowfn w = wf
        ∧ triggerfn w = DefaultTrigger
        ∧ accumulation_mode w = DISCARDING)
  ∧ (∀ t, triggerfn_eq t DefaultTrigger = false →
          Windowing_init wf (Some t) None = Raise ValueError).
Proof.
  intros Hrefl. split.
  - unfold Windowing_init. rewrite Hrefl. simpl. eauto.
  - intros t Ht. unfold Windowing_init. by rewrite Ht.
Qed.

(** C5: for a [Windowing] that was constructed, [is_default] holds
    exactly when the window function equals [GlobalWindows()], the
    trigger equals [DefaultTrigger()] and the accumulation mode is
    [DISCARDING]. *)
Theorem Windowing_is_default_iff (wf : WindowFn) (t : option TriggerFn)
    (mode : option AccumulationMode) (w : Windowing WindowFn TriggerFn) :
  Windowing_init wf t mode = Ok w →
  let default :=
    windowfn_eq (windowfn w) GlobalWindows = true
    ∧ triggerfn_eq (triggerfn w) DefaultTrigger = true
    ∧ accumulation_mode w = DISCARDING in
  (is_default w = true ↔ default) ∧ (is_default w = false ↔ ¬ default).
Proof.
  intros Hinit default.
  assert (is_default w = true ↔ default) as Hiff.
  { unfold Windowing_init in Hinit.
    apply result_bind_Ok in Hinit as (m & _ & [= <-]).
    unfold is_default, default. simpl.
    rewrite !andb_true_iff, bool_decide_eq_true. tauto. }
  split; [done|]. rewrite <- Hiff. by destruct (is_default w).
Qed.
End Windowing.

Lemma Windowing_init_omitted_mode_witness :
  (∃ w, Windowing_init (SampleFixedWindows 60) None None = Ok w
        ∧ windowfn w = SampleFixedWindows 60
        ∧ triggerfn w = SampleDefaultTrigger
        ∧ accumulation_mode w = DISCARDING)
  ∧ Windowing_init (SampleFixedWindows 60) (Some (SampleAfterCount 5)) None
    = Raise ValueError.
Proof.
  destruct (Windowing_init_omitted_mode (SampleFixedWindows 60))
    as [Hdefault Hother]; [reflexivity|].
  split; [exact Hdefault | apply Hother; reflexivity].
Defined.

Lemma Windowing_is_default_iff_witness :
  ∃ w, Windowing_init SampleGlobalWindows None None = Ok w
       ∧ is_default w = true.
Proof.
  set (w := {| windowfn := SampleGlobalWindows;
               triggerfn := SampleDefaultTrigger;
               accumulation_mode := DISCARDING;
               _is_default := true |}).
  assert (Windowing_init SampleGlobalWindows None None = Ok w) as Hinit
    by reflexivity.
  exists w. split; [exact Hinit|].
  apply (Windowing_is_default_iff _ _ _ _ Hinit). repeat split.
Defined.

(** ** Create *)

Lemma alloc_lookup_new (h : heap) (v : pyval) :
  (alloc h v).2 !! (alloc h v).1 = Some v.
Proof. unfold alloc. simpl. apply lookup_insert_eq. Qed.



(** A tuple stays what it is whatever the program does to the heap. *)
Lemma heap_step_tuple (h h' : heap) (l : positive) (items : list pyval) :
  heap_step h h' → h !! l = Some (PyTuple items) →
  h' !! l = Some (PyTuple items).
Proof.
  intros Hstep Hl.
  destruct Hstep as [h l0 ? ? Hl0|h l0 ? ? Hl0|h l0 ? Hl0];
    (rewrite lookup_insert_ne; [done|]); intros <-; congruence.
Qed.

Lemma heap_steps_tuple (h h' : heap) (l : positive) (items : list pyval) :
  rtc heap_step h h' → h !! l = Some (PyTuple items) →
  h' !! l = Some (PyTuple items).
Proof.
  induction 1 as [|h1 h2 h3 Hstep _ IH]; [done|].
  intros Hl. by apply IH, (heap_step_tuple h1).
Qed.

Lemma py_tuple_iterable (h : heap) (x : positive) (obj : pyval)
    (items : list pyval) :
  h !! x = Some obj → py_iter obj = Ok items →
  ∃ t h', py_tuple h x = Ok (t, h') ∧ h' !! t = Some (PyTuple items).
Proof.
  intros Hx Hiter. unfold py_tuple. rewrite Hx.
  destruct obj; simplify_eq/=;
    try (eexists _, _; split; [done|]; apply alloc_lookup_new).
  by eexists _, _.
Qed.

Lemma Create_elements_Raise (obj : pyval) (e : exn) :
  Create_elements obj = Raise e →
  e = TypeError ∧ (is_basestring obj = true ∨ py_iter obj = Raise TypeError).
Proof. destruct obj; simpl; intros [= <-]; auto. Qed.

(** The constructor and its contract agree. *)
Lemma Create_init_elements (h : heap) (x : positive) (obj : pyval) :
  h !! x = Some obj →
  match Create_elements obj with
  | Raise e => Create_init h x = Raise e
  | Ok items =>
      ∃ c h', Create_init h x = Ok (c, h')
              ∧ h' !! value c = Some (PyTuple items)
  end.
Proof.
  intros Hx. unfold Create_init. rewrite Hx.
  destruct obj as [|z|s|items|items|entries|id]; simpl;
    try done; try (unfold py_tuple; rewrite Hx; done).
  - destruct (py_tuple_iterable h x (PyTuple items) items Hx eq_refl)
      as (t & h' & -> & Ht). simpl. by eexists _, _.
  - destruct (py_tuple_iterable h x (PyList items) items Hx eq_refl)
      as (t & h' & -> & Ht). simpl. by eexists _, _.
  - unfold call_items. rewrite Hx. simpl.
    destruct (py_tuple_iterable _ _ (PyList (py_items entries))
                (py_items entries)
                (alloc_lookup_new h (PyList (py_items entries))) eq_refl)
      as (t & h' & Htuple & Ht).
    unfold alloc in Htuple. simpl in Htuple. rewrite Htuple. simpl.
    by eexists _, _.
Qed.

(** C10, as the code has it: [Create.__init__] raises [TypeError] exactly
    when the value is a string or cannot be iterated, and raises nothing
    else; for a dict the elements are its [(key, value)] pairs; and
    whenever the value is accepted the transform holds a tuple of the
    elements read at construction, which no later change of the heap,
    the given list or dict included, alters. *)
Theorem Create_init_snapshot (h : heap) (x : positive) (obj : pyval) :
  h !! x = Some obj →
  (Create_init h x = Raise TypeError
   ↔ is_basestring obj = true ∨ py_iter obj = Raise TypeError)
  ∧ (∀ e, Create_init h x = Raise e → e = TypeError)
  ∧ (∀ entries, obj = PyDict entries →
       ∃ c h', Create_init h x = Ok (c, h')
               ∧ h' !! value c = Some (PyTuple (py_items entries)))
  ∧ (∀ c h', Create_init h x = Ok (c, h') →
       ∃ items, Create_elements obj = Ok items
                ∧ h' !! value c = Some (PyTuple items)
                ∧ ∀ h'', rtc heap_step h' h'' →
                         h'' !! value c = Some (PyTuple items)).
Proof.
  intros Hx. pose proof (Create_init_elements h x obj Hx) as Hinit.
  destruct (Create_elements obj) as [items|e] eqn:Hel.
  - destruct Hinit as (c & h' & Hinit & Hc). split_and!.
    + rewrite Hinit. split; [done|].
      intros [Hstr|Hiter]; destruct obj; simplify_eq/=.
    + intros e. by rewrite Hinit.
    + intros entries ->. simplify_eq/=. by eexists _, _.
    + intros c' h'' Hinit'. rewrite Hinit in Hinit'. simplify_eq.
      exists items. split_and!; [done|done|].
      intros h3 Hsteps. by apply (heap_steps_tuple h'').
  - destruct (Create_elements_Raise obj e Hel) as [-> Hwhy]. split_and!.
    + done.
    + intros e. rewrite Hinit. by intros [= <-].
    + intros entries ->. done.
    + intros c h'. by rewrite Hinit.
Qed.

Lemma Create_init_snapshot_witness :
  let h : heap := {[ 1%positive := PyList [PyInt 1; PyInt 2] ]} in
  ∃ c h', Create_init h 1%positive = Ok (c, h')
    ∧ ∀ h'', rtc heap_step h' h'' →
             h'' !! value c = Some (PyTuple [PyInt 1; PyInt 2]).
Proof.
  intros h.
  assert (h !! 1%positive = Some (PyList [PyInt 1; PyInt 2])) as Hx
    by reflexivity.
  destruct (Create_init_snapshot h 1%positive _ Hx) as (_ & _ & _ & Hsnap).
  destruct (Create_init h 1%positive) as [[c h']|e] eqn:Hinit.
  - exists c, h'. split; [done|].
    destruct (Hsnap c h' eq_refl) as (items & Hitems & _ & Hstable).
    injection Hitems as <-. exact Hstable.
  - exfalso. destruct (Create_init_elements h 1%positive _ Hx)
      as (c & h' & Hok & _). congruence.
Defined.

(** C10, as it was stated, fails: the number 5 is no string, and
    [Create(5)] raises [TypeError]. *)
Lemma Create_init_TypeError_without_string :
  ¬ (Create_init {[ 1%positive := PyInt 5 ]} 1%positive = Raise TypeError
     ↔ is_basestring (PyInt 5) = true).
Proof. intros [Hraise _]. by specialize (Hraise eq_refl). Qed.

(** The original list, changed after the construction, reads differently
    from the transform's elements. *)
Example Create_init_then_append :
  let h : heap := {[ 1%positive := PyList [PyInt 1; PyInt 2] ]} in
  ∃ c h', Create_init h 1%positive = Ok (c, h')
    ∧ value c ≠ 1%positive
    ∧ let h'' := <[1%positive := PyList [PyInt 1; PyInt 2; PyInt 3]]> h' in
      heap_step h' h''
      ∧ h'' !! 1%positive = Some (PyList [PyInt 1; PyInt 2; PyInt 3])
      ∧ h'' !! value c = Some (PyTuple [PyInt 1; PyInt 2]).
Proof.
  intros h. eexists _, _. split; [reflexivity|]. split; [done|].
  split; [by eapply step_list|]. split; [done|]. by vm_compute.
Qed.

(** ** The wrapper of [sum] is an associative, commutative reduction *)

Lemma py_sum_from_int_sum (start : Z) (items : list pyval) :
  py_sum_from start items =
  match int_sum items with
  | Some total => Ok (PyInt (start + total))
  | None => Raise TypeError
  end.
Proof.
  revert start. induction items as [|x rest IH]; intros start; simpl.
  - by rewrite Z.add_0_r.
  - destruct x; try done. rewrite IH.
    destruct (int_sum rest); simpl; [|done]. by rewrite Z.add_assoc.
Qed.

Lemma int_sum_perm (p q : list pyval) : p ≡ₚ q → int_sum p = int_sum q.
Proof.
  induction 1 as [|x p q _ IH|x y p|p q r _ IH1 _ IH2]; simpl.
  - done.
  - by rewrite IH.
  - destruct x, y; try done; destruct (int_sum p); simpl; try done.
    f_equal. lia.
  - by rewrite IH1.
Qed.

Lemma int_sum_app (p q : list pyval) :
  int_sum (p ++ q) =
  match int_sum p, int_sum q with
  | Some a, Some b => Some (a + b)%Z
  | _, _ => None
  end.
Proof.
  induction p as [|x p IH]; simpl.
  - by destruct (int_sum q).
  - destruct x; try done. rewrite IH.
    destruct (int_sum p), (int_sum q); simpl; try done. f_equal. lia.
Qed.

Lemma accumulate_py_sum (p : list pyval) :
  accumulate (CallableWrapperCombineFn py_sum) [] p =
  match int_sum p with
  | Some total => Ok (PyInt total)
  | None => Raise TypeError
  end.
Proof.
  unfold accumulate. simpl. unfold CallableWrapperCombineFn_add_inputs.
  simpl. apply py_sum_from_int_sum.
Qed.

Lemma merge_py_sum (start : Z) (batches : list (list pyval)) :
  (accs ← mapM (accumulate (CallableWrapperCombineFn py_sum) []) batches;
   py_sum_from start accs)
  = match int_sum (concat batches) with
    | Some total => Ok (PyInt (start + total))
    | None => Raise TypeError
    end.
Proof.
  revert start. induction batches as [|b bs IH]; intros start.
  - simpl. by rewrite Z.add_0_r.
  - cbn [mapM concat]. rewrite accumulate_py_sum, int_sum_app.
    destruct (int_sum b) as [tb|]; simpl; [|done].
    specialize (IH (start + tb)%Z).
    destruct (mapM _ bs) as [accs|e]; simpl in *.
    + rewrite IH. destruct (int_sum (concat bs)); [|done].
      by rewrite Z.add_assoc.
    + by destruct (int_sum (concat bs)).
Qed.

Lemma CallableWrapperCombineFn_sum_AssocCommReduction :
  AssocCommReduction (CallableWrapperCombineFn py_sum) [].
Proof.
  split.
  - intros p q Hpq. by rewrite !accumulate_py_sum, (int_sum_perm p q).
  - intros batches. rewrite accumulate_py_sum.
    apply (merge_py_sum 0).
Qed.

(** The spec's example, key by key: the values of
    [('a',1),('b',10),('a',2),('a',3),('b',20),('c',100)] combined with
    [sum]. *)
Example CombinePerKey_sum :
  let dofn := {| combinefn := CallableWrapperCombineFn py_sum;
                 runtime_type_check := false |} in
  CombineValuesDoFn_process dofn ("a", [PyInt 1; PyInt 2; PyInt 3]) []
    = Ok [("a", PyInt 6)]
  ∧ CombineValuesDoFn_process dofn ("b", [PyInt 10; PyInt 20]) []
    = Ok [("b", PyInt 30)]
  ∧ CombineValuesDoFn_process dofn ("c", [PyInt 100]) []
    = Ok [("c", PyInt 100)]
  ∧ CombineValuesDoFn_process dofn ("d", []) [] = Ok [("d", PyInt 0)].
Proof. done. Qed.

(** ** The sample trigger driver, run *)

Example GroupAlsoByWindow_process_sample :
  GroupAlsoByWindow_process ()
    ("k", [Build_WindowedValue 1%Z 5%Z [(0, 10)%Z];
           Build_WindowedValue 2%Z 12%Z [(10, 20)%Z];
           Build_WindowedValue 3%Z 7%Z [(0, 10)%Z]]) 2
  = ([Build_WindowedValue ("k", [1; 3]%Z) 10%Z [(0, 10)%Z];
      Build_WindowedValue ("k", [2]%Z) 20%Z [(10, 20)%Z]], true).
Proof. by vm_compute. Qed.

(* ------------------------------------------------------------------ *)
(** ** More of the combiners                                           *)
(* ------------------------------------------------------------------ *)

(** X1: The inherited [add_inputs] folds from the left: adding [xs ++ ys] is
    adding [xs] and then [ys] to what came out, and an exception of
    [add_input] ends the loop. *)
Theorem default_add_inputs_app {Args In Acc : Type}
    (f : Acc → In → Args → result Acc) (a : Acc) (xs ys : list In)
    (args : Args) :
  default_add_inputs f a (xs ++ ys) args
  = (a' ← default_add_inputs f a xs args; default_add_inputs f a' ys args).
Proof.
  revert a. induction xs as [|x xs IH]; intros a; simpl; [done|].
  destruct (f a x args) as [a'|e]; simpl; [apply IH | done].
Qed.

Lemma mapM_result_Ok {A B : Type} (f : A → result B) (l : list A)
    (k : list B) :
  mapM f l = Ok k ↔ Forall2 (λ x y, f x = Ok y) l k.
Proof.
  revert k. induction l as [|x l IH]; intros k; simpl.
  - split; [intros [= <-]; constructor | by inversion 1].
  - split.
    + intros (y & Hy & Hrest)%result_bind_Ok.
      apply result_bind_Ok in Hrest as (k' & Hk' & [= <-]).
      constructor; [done | by apply IH].
    + inversion 1 as [|? y ? k' Hy Hrest]; subst.
      apply IH in Hrest. by rewrite Hy, Hrest.
Qed.

Lemma round_robin_batches_range3 {A : Type} (vs : list A) :
  round_robin_batches vs (py_range 3)
  = (λ j, py_slice_step j 3 vs) <$> seq 0 (min 3 (length vs)).
Proof.
  unfold py_range. simpl.
  by destruct vs as [|a [|b [|c t]]].
Qed.

(** X2: Whenever the split branch of [CombineValuesDoFn.process] returns, it
    has merged min(3, n) accumulators, the [j]-th of them being the fold
    of the values at the indices [j], [j + 3], [j + 6], ... into a fresh
    accumulator; for no values at all it merges the empty list. *)
Theorem CombineValuesDoFn_process_accumulators {Args In Acc Out K : Type}
    (cf : CombineFn Args In Acc Out) (args : Args) (k : K) (vs : list In)
    (out : list (K * Out)) :
  CombineValuesDoFn_process
    {| combinefn := cf; runtime_type_check := false |} (k, vs) args = Ok out →
  ∃ (accs : list Acc) (a : Acc) (r : Out),
    length accs = min 3 (length vs)
    ∧ (∀ j aj, accs !! j = Some aj →
         ∃ batch, (∀ i, batch !! i = vs !! (j + i * 3))
                  ∧ accumulate cf args batch = Ok aj)
    ∧ merge_accumulators cf accs args = Ok a
    ∧ extract_output cf a args = Ok r
    ∧ out = [(k, r)].
Proof.
  unfold CombineValuesDoFn_process. cbn [runtime_type_check combinefn fst snd].
  intros (accs & Hfill & Hrest)%result_bind_Ok.
  apply result_bind_Ok in Hrest as (a & Hmerge & Hrest).
  apply result_bind_Ok in Hrest as (r & Hextract & [= <-]).
  exists accs, a, r. split_and!; try done.
  - rewrite fill_accumulators_mapM, round_robin_batches_range3 in Hfill.
    apply mapM_result_Ok, Forall2_length in Hfill.
    by rewrite length_fmap, length_seq in Hfill.
  - intros j aj Hj.
    rewrite fill_accumulators_mapM, round_robin_batches_range3 in Hfill.
    apply mapM_result_Ok in Hfill.
    destruct (Forall2_lookup_r _ _ _ _ _ Hfill Hj) as (batch & Hbatch & Hacc).
    apply list_lookup_fmap_Some in Hbatch as (j' & -> & Hj').
    apply lookup_seq in Hj' as [-> _]. simpl in Hacc.
    exists (py_slice_step j 3 vs). split; [|done].
    intros i. apply py_slice_step_lookup. lia.
Qed.

Lemma CombineValuesDoFn_process_accumulators_witness :
  ∃ accs a r,
    length accs = 3
    ∧ merge_accumulators AverageFn accs () = Ok a
    ∧ extract_output AverageFn a () = Ok r
    ∧ [("cat", Some 4%Z)] = [("cat", r)].
Proof.
  destruct (CombineValuesDoFn_process_accumulators AverageFn () "cat"
              [1; 5; 9; 1]%Z [("cat", Some 4%Z)] eq_refl)
    as (accs & a & r & Hlen & _ & Hmerge & Hextract & Hout).
  by exists accs, a, r.
Defined.

(** X3: [apply] on a [CallableWrapperCombineFn] calls [fn] once, on the
    elements and the side inputs, and returns what [fn] returns (for the
    sentinel, which [fn] has no way to make, it would call [fn] again on
    nothing). *)
Theorem CallableWrapperCombineFn_apply (fn : callable)
    (es args : list pyval) :
  CombineFn_apply (CallableWrapperCombineFn fn) es args
  = (r ← fn es args; if is_EMPTY r then fn [] [] else Ok r).
Proof. done. Qed.

Lemma int_sum_ints (zs : list Z) :
  int_sum (PyInt <$> zs) = Some (foldr Z.add 0%Z zs).
Proof.
  induction zs as [|z zs IH]; [done|].
  rewrite fmap_cons. cbn [int_sum]. by rewrite IH.
Qed.

(** X4: Combining the integers of one key with [sum] gives their sum, in the
    split branch as in the single-shot one, for every list of integers. *)
Theorem CombineValuesDoFn_process_sum {K : Type} (k : K) (zs : list Z)
    (rtc : bool) :
  CombineValuesDoFn_process
    {| combinefn := CallableWrapperCombineFn py_sum;
       runtime_type_check := rtc |} (k, PyInt <$> zs) []
  = Ok [(k, PyInt (foldr Z.add 0%Z zs))].
Proof.
  unfold CombineValuesDoFn_process.
  cbn [runtime_type_check combinefn fst snd]. destruct rtc.
  - change (CombineFn_apply (CallableWrapperCombineFn py_sum)
              (PyInt <$> zs) [])
      with (r ← py_sum_from 0 (PyInt <$> zs);
            if is_EMPTY r then py_sum [] [] else Ok r).
    by rewrite py_sum_from_int_sum, int_sum_ints.
  - set (batches := round_robin_batches (PyInt <$> zs) (py_range 3)).
    assert ((accs ← mapM (accumulate (CallableWrapperCombineFn py_sum) [])
                      batches;
             merge_accumulators (CallableWrapperCombineFn py_sum) accs [])
            = Ok (PyInt (foldr Z.add 0%Z zs))) as Hmerge.
    { etransitivity; [exact (merge_py_sum 0 batches)|].
      unfold batches.
      by rewrite (int_sum_perm _ _ (round_robin_batches_concat _)),
        int_sum_ints. }
    rewrite fill_accumulators_mapM, <- result_bind_assoc.
    fold batches. by rewrite Hmerge.
Qed.

(* ------------------------------------------------------------------ *)
(** ** More of GroupByKey, Partition, Windowing                        *)
(* ------------------------------------------------------------------ *)

Lemma py_iter_Raise (x : pyval) (e : exn) : py_iter x = Raise e → e = TypeError.
Proof. destruct x; simpl; congruence. Qed.

(** X7: What [ReifyWindows.process] does with every element: it returns for
    one that iterates to exactly two items, raises [TypeCheckError] for
    one that cannot be iterated, raises [ValueError] for one that iterates
    to another number of items, and does nothing else. *)
Theorem ReifyWindows_process_cases {Timestamp Window : Type}
    (context : DoFnProcessContext pyval Timestamp Window) :
  (∀ out, ReifyWindows_process context = Ok out ↔
     ∃ k v, py_iter (element context) = Ok [k; v]
            ∧ out = [(k, Build_WindowedValue v (timestamp context)
                           (windows context))])
  ∧ (ReifyWindows_process context = Raise TypeCheckError
       ↔ py_iter (element context) = Raise TypeError)
  ∧ (ReifyWindows_process context = Raise ValueError
       ↔ ∃ items, py_iter (element context) = Ok items ∧ length items ≠ 2)
  ∧ ReifyWindows_process context ≠ Raise TypeError
  ∧ ReifyWindows_process context ≠ Raise NotImplementedError.
Proof.
  unfold ReifyWindows_process, py_unpack2.
  destruct (py_iter (element context)) as [items|e] eqn:Hiter; simpl.
  - destruct items as [|k [|v [|w items]]]; simpl;
      (split_and!; [intros out; split| split | split | done | done]);
      try done; try (intros (? & ? & ? & ?); simplify_eq/=; done);
      try (intros (? & ? & ?); simplify_eq/=; done);
      try (intros _; eexists; split; [done|]; simpl; lia).
    intros [= <-]. by exists k, v.
  - apply py_iter_Raise in Hiter as ->.
    split_and!; try done; [intros out; split; [done|]|split; [done|]].
    + by intros (? & ? & ? & ?).
    + by intros (? & ? & ?).
Qed.

(** X10: Every value that [ApplyPartitionFnFn.process] yields carries the
    element and one of the tags that [Partition.apply] declares for [n]
    partitions; these tags are pairwise distinct; and with no partition
    to choose from every element is refused. *)
Theorem Partition_outputs_declared {E Timestamp Window Args : Type}
    (context : DoFnProcessContext E Timestamp Window)
    (partitionfn : PartitionFn E Timestamp Window Args) (n : Z) (args : Args) :
  (∀ outs, ApplyPartitionFnFn_process context partitionfn n args = Ok outs →
     ∃ p, (0 ≤ p < n)%Z
          ∧ outs = [Build_SideOutputValue (py_str_int p) (element context)]
          ∧ py_str_int p ∈ Partition_tags (Z.to_nat n))
  ∧ NoDup (Partition_tags (Z.to_nat n))
  ∧ ((n ≤ 0)%Z → ∀ p, partition_for partitionfn context n args = Ok p →
       ApplyPartitionFnFn_process context partitionfn n args
       = Raise ValueError).
Proof.
  split_and!.
  - unfold ApplyPartitionFnFn_process.
    intros outs (p & Hp & Hout)%result_bind_Ok.
    destruct (0 <=? p)%Z eqn:H0; destruct (p <? n)%Z eqn:Hn;
      simplify_eq/=.
    exists p. split_and!; [lia|lia|done|].
    apply py_str_int_in_Partition_tags. lia.
  - unfold Partition_tags, py_range. apply NoDup_fmap_2_strong.
    + intros a b _ _ Heq. by apply py_str_int_inj, Nat2Z.inj in Heq.
    + apply NoDup_seq.
  - intros Hn p Hp. unfold ApplyPartitionFnFn_process. rewrite Hp. simpl.
    destruct (0 <=? p)%Z eqn:H0; destruct (p <? n)%Z eqn:Hlt;
      simpl; try done; lia.
Qed.

Section Create_windowing.
Context {WindowFn TriggerFn : Type} `{!WindowingModule WindowFn TriggerFn}.

(** X11: The windowing of a [Create]: with [GlobalWindows()] and
    [DefaultTrigger()] each equal to itself, [get_windowing] returns, and
    what it returns is the default windowing, with [DISCARDING]. *)
Theorem Create_get_windowing_is_default :
  windowfn_eq GlobalWindows GlobalWindows = true →
  triggerfn_eq DefaultTrigger DefaultTrigger = true →
  ∃ w, Create_get_windowing = Ok w
       ∧ is_default w = true
       ∧ windowfn w = GlobalWindows
       ∧ triggerfn w = DefaultTrigger
       ∧ accumulation_mode w = DISCARDING.
Proof.
  intros Hwf Htf. unfold Create_get_windowing, Windowing_init.
  rewrite Htf. simpl. eexists. split; [done|].
  unfold is_default. simpl. by rewrite Hwf.
Qed.
End Create_windowing.

Lemma Create_get_windowing_is_default_witness :
  ∃ w : Windowing SampleWindowFn SampleTriggerFn,
    Create_get_windowing = Ok w ∧ is_default w = true.
Proof.
  destruct (@Create_get_windowing_is_default SampleWindowFn SampleTriggerFn _)
    as (w & Hw & Hdefault & _); [reflexivity|reflexivity|].
  by exists w.
Defined.

(* ------------------------------------------------------------------ *)
(** ** DoFnProcessContext                                              *)
(* ------------------------------------------------------------------ *)

Section ContextObject_properties.
Context {E Timestamp Window State : Type}.
Implicit Types (self : ContextObject E Timestamp Window State).
Implicit Types (wv : option (WindowedValue E Timestamp Window)).

Lemma last_cons_default {A : Type} (l : list A) (x d d' : A) :
  List.last (x :: l) d = List.last (x :: l) d'.
Proof. revert x. induction l as [|y l IH]; intros x; [done|]. apply IH. Qed.

Lemma set_element_attrs self wv0 wv :
  attrs self = attrs_of wv0 →
  ∃ self', set_element self wv = Return self'
           ∧ attrs self' = attrs_of wv
           ∧ label self' = label self
           ∧ state self' = state self.
Proof.
  unfold attrs. intros Hattrs.
  destruct wv as [wv|]; simpl; [by eexists|].
  destruct self as [l st e t ws]. destruct wv0 as [wv0|]; simplify_eq/=.
  - by eexists.
  - by eexists.
Qed.

Lemma set_elements_attrs self wv0 calls :
  attrs self = attrs_of wv0 →
  ∃ self', set_elements self calls = Return self'
           ∧ attrs self' = attrs_of (List.last calls wv0)
           ∧ label self' = label self
           ∧ state self' = state self.
Proof.
  revert self wv0. induction calls as [|wv calls IH]; intros self wv0 Hattrs.
  - by exists self.
  - destruct (set_element_attrs self wv0 wv Hattrs)
      as (self1 & Hset & Hattrs1 & Hlabel & Hstate).
    destruct (IH self1 wv Hattrs1) as (self2 & Hsets & Hattrs2 & Hl2 & Hs2).
    exists self2. cbn [set_elements]. rewrite Hset. simpl.
    split_and!; [done| |congruence|congruence].
    rewrite Hattrs2. destruct calls as [|c calls]; [done|].
    f_equal. apply last_cons_default.
Qed.

(** X8: From its construction on and through any run of [set_element] calls a
    context never raises; [element], [timestamp] and [windows] are there
    together or not at all; they are those of the last windowed value
    set, and gone after [set_element(None)]; [label] and [state] stay. *)
Theorem DoFnProcessContext_set_element_run (l : string)
    (wv0 : option (WindowedValue E Timestamp Window)) (st : State)
    (calls : list (option (WindowedValue E Timestamp Window))) :
  ∃ self,
    (self ← DoFnProcessContext_init l wv0 st; set_elements self calls)
      = Return self
    ∧ attrs self = attrs_of (List.last calls wv0)
    ∧ label self = l
    ∧ state self = st.
Proof.
  assert (∃ self0, DoFnProcessContext_init l wv0 st = Return self0
                   ∧ attrs self0 = attrs_of wv0
                   ∧ label self0 = l ∧ state self0 = st)
    as (self0 & Hinit & Hattrs & Hl & Hst).
  { unfold DoFnProcessContext_init. destruct wv0; by eexists. }
  destruct (set_elements_attrs self0 wv0 calls Hattrs)
    as (self & Hrun & Hattrs' & Hl' & Hst').
  exists self. rewrite Hinit. simpl. split_and!; congruence.
Qed.

End ContextObject_properties.

(** The runner hands an element over with [set_element] and
    [ReifyWindows.process] reads it from the context: a key/value pair
    comes out with its value wrapped together with exactly the timestamp
    and the windows of the windowed value, whatever the context held
    before. *)
Theorem ReifyWindows_after_set_element {Timestamp Window State : Type}
    (self : ContextObject pyval Timestamp Window State)
    (k v : pyval) (t : Timestamp) (ws : list Window) :
  (self ← set_element self (Some (Build_WindowedValue (PyTuple [k; v]) t ws));
   context ← read_context self;
   of_result (ReifyWindows_process context))
  = Return [(k, Build_WindowedValue v t ws)].
Proof. done. Qed.

(* ------------------------------------------------------------------ *)
(** ** Keyword arguments: ParDo.with_outputs and Flatten               *)
(* ------------------------------------------------------------------ *)

Lemma kwargs_only (key : string) (kwargs : gmap string pyval) :
  delete key kwargs ≠ ∅ ↔ ∃ k, k ≠ key ∧ is_Some (kwargs !! k).
Proof.
  split.
  - intros Hne. apply map_choose in Hne as (k & v & Hk).
    apply lookup_delete_Some in Hk as [Hkey Hk]. by exists k.
  - intros (k & Hkey & [v Hk]) Hempty.
    assert (delete key kwargs !! k = Some v) as Hdel
      by by apply lookup_delete_Some.
    by rewrite Hempty in Hdel.
Qed.

(** X13: [with_outputs] raises [ValueError] exactly when a keyword other than
    [main] is given; otherwise the tags are kept as given and the main tag
    is the value of [main], [None] when [main] is not given. *)
Theorem ParDo_with_outputs_keywords {P : Type} (self : P) (tags : list pyval)
    (main_kw : gmap string pyval) :
  (ParDo_with_outputs self tags main_kw = Raise ValueError
   ↔ ∃ k, k ≠ "main" ∧ is_Some (main_kw !! k))
  ∧ (∀ m, ParDo_with_outputs self tags main_kw = Ok m →
       _do_transform m = self ∧ _tags m = tags
       ∧ _main_tag m = default PyNone (main_kw !! "main")
       ∧ ∀ k, is_Some (main_kw !! k) → k = "main").
Proof.
  unfold ParDo_with_outputs, kwargs_pop. rewrite <- kwargs_only.
  case_bool_decide as Hrest; split.
  - done.
  - done.
  - split; [done|]. intros Hne. contradiction.
  - intros m [= <-]. split_and!; try done.
    intros k Hk. destruct (decide (k = "main")) as [|Hne]; [done|].
    assert (delete "main" main_kw ≠ ∅) as Hleft
      by (apply kwargs_only; by exists k).
    contradiction.
Qed.

(** X14: [Flatten.__init__] raises [ValueError] exactly when a keyword other
    than [pipeline] is given, and [_extract_input_pvalues] raises
    [ValueError], never [TypeError], exactly when its input cannot be
    iterated; otherwise it returns twice the tuple of the items. *)
Theorem Flatten_arguments (label pvalueish : pyval)
    (kwargs : gmap string pyval) :
  (Flatten_init label kwargs = Raise ValueError
   ↔ ∃ k, k ≠ "pipeline" ∧ is_Some (kwargs !! k))
  ∧ (∀ f, Flatten_init label kwargs = Ok f →
       pipeline f = default PyNone (kwargs !! "pipeline"))
  ∧ (Flatten_extract_input_pvalues pvalueish = Raise ValueError
     ↔ py_iter pvalueish = Raise TypeError)
  ∧ Flatten_extract_input_pvalues pvalueish ≠ Raise TypeError
  ∧ (∀ items, py_iter pvalueish = Ok items →
       Flatten_extract_input_pvalues pvalueish
       = Ok (PyTuple items, PyTuple items)).
Proof.
  unfold Flatten_init, kwargs_pop, Flatten_extract_input_pvalues.
  rewrite <- kwargs_only. split_and!.
  - case_bool_decide as Hrest; split; done.
  - case_bool_decide; [done|]. by intros f [= <-].
  - destruct (py_iter pvalueish) as [items|e] eqn:Hiter; [done|].
    by apply py_iter_Raise in Hiter as ->.
  - destruct (py_iter pvalueish) as [items|e] eqn:Hiter; [done|].
    by apply py_iter_Raise in Hiter as ->.
  - by intros items ->.
Qed.

(* ------------------------------------------------------------------ *)
(** ** FlatMap, Map, Filter                                            *)
(* ------------------------------------------------------------------ *)

(** X15: The [ParDo] that [Map] makes from a callable [fn], with a label or
    without: its [DoFn] turns an element into the one-item list of what
    [fn] returns for the element and the side inputs, and raises what
    [fn] raises; the function whose signature stands for the [DoFn]'s is
    [fn], not the wrapper. *)
Theorem Map_process {Timestamp Window : Type} (fn : pyfunction)
    (args : list pyarg) (l : string)
    (context : DoFnProcessContext pyval Timestamp Window)
    (side : list pyval) :
  ∃ dofn,
    Map (ArgCallable fn) args
      = Return {| ParDo_label := PyNone; ParDo_fn := dofn;
                  ParDo_args := args |}
    ∧ Map (ArgValue (PyStr l)) (ArgCallable fn :: args)
      = Return {| ParDo_label := PyStr l; ParDo_fn := dofn;
                  ParDo_args := args |}
    ∧ CallableWrapperDoFn_process dofn context side
      = (r ← call fn (element context :: side); Ok (PyList [r]))
    ∧ CallableWrapperDoFn_process_argspec_fn dofn = fn.
Proof. by eexists. Qed.

(** X16: The [ParDo] that [Filter] makes from a callable [fn]: its [DoFn]
    yields the element itself when what [fn] returns is true and nothing
    when it is false; it never yields anything else, and raises what [fn]
    raises. *)
Theorem Filter_process {Timestamp Window : Type} (fn : pyfunction)
    (args : list pyarg) (l : string)
    (context : DoFnProcessContext pyval Timestamp Window)
    (side : list pyval) :
  ∃ dofn,
    Filter (ArgCallable fn) args
      = Return {| ParDo_label := PyNone; ParDo_fn := dofn;
                  ParDo_args := args |}
    ∧ Filter (ArgValue (PyStr l)) (ArgCallable fn :: args)
      = Return {| ParDo_label := PyStr l; ParDo_fn := dofn;
                  ParDo_args := args |}
    ∧ (∀ r, call fn (element context :: side) = Ok r →
         CallableWrapperDoFn_process dofn context side
         = Ok (if py_truthy r then PyList [element context] else PyList []))
    ∧ (∀ e, call fn (element context :: side) = Raise e →
         CallableWrapperDoFn_process dofn context side = Raise e)
    ∧ (∀ out, CallableWrapperDoFn_process dofn context side = Ok out →
         out = PyList [element context] ∨ out = PyList []).
Proof.
  eexists. split_and!; try done.
  - intros r Hr. unfold CallableWrapperDoFn_process. simpl. by rewrite Hr.
  - intros e He. unfold CallableWrapperDoFn_process. simpl. by rewrite He.
  - unfold CallableWrapperDoFn_process. simpl.
    intros out (r & _ & [= <-])%result_bind_Ok.
    destruct (py_truthy r); auto.
Qed.

Lemma Filter_process_witness :
  ∃ dofn : CallableWrapperDoFn,
    CallableWrapperDoFn_process dofn
      {| element := PyInt 4; timestamp := (); windows := @nil () |} []
    = Ok (PyList [PyInt 4]).
Proof.
  destruct (Filter_process (PyFunction (λ xs, Ok (PyInt 1)) None) [] "keep"
              {| element := PyInt 4; timestamp := (); windows := @nil () |} [])
    as (dofn & _ & _ & Hkeep & _).
  exists dofn. exact (Hkeep (PyInt 1) eq_refl).
Defined.

(** X17: How the three read their first argument: [FlatMap] takes [None] for
    a label, [Map] and [Filter] take it for the callable and refuse it;
    a label with nothing after it is an [IndexError]; and a first
    argument that is neither a string nor callable (nor, for [FlatMap],
    [None]) is a [TypeError]. *)
Theorem FlatMap_Map_Filter_first_argument (fn : pyfunction)
    (args : list pyarg) (l : string) (v : pyval) :
  FlatMap (ArgValue PyNone) (ArgCallable fn :: args)
    = Return {| ParDo_label := PyNone; ParDo_fn := {| _fn := fn |};
                ParDo_args := args |}
  ∧ Map (ArgValue PyNone) (ArgCallable fn :: args) = Throw (Exn TypeError)
  ∧ Filter (ArgValue PyNone) (ArgCallable fn :: args) = Throw (Exn TypeError)
  ∧ FlatMap (ArgValue (PyStr l)) [] = Throw IndexError
  ∧ FlatMap (ArgValue PyNone) [] = Throw IndexError
  ∧ Map (ArgValue (PyStr l)) [] = Throw IndexError
  ∧ Filter (ArgValue (PyStr l)) [] = Throw IndexError
  ∧ (is_str (ArgValue v) = false →
       Map (ArgValue v) args = Throw (Exn TypeError)
       ∧ Filter (ArgValue v) args = Throw (Exn TypeError)
       ∧ (v ≠ PyNone → FlatMap (ArgValue v) args = Throw (Exn TypeError))).
Proof.
  split_and!; try done.
  intros Hstr. unfold Map, Filter, FlatMap. rewrite Hstr. simpl.
  split_and!; try done. intros Hnone.
  by destruct v.
Qed.

Lemma FlatMap_Map_Filter_first_argument_witness :
  Map (ArgValue (PyInt 3)) [] = Throw (Exn TypeError)
  ∧ FlatMap (ArgValue (PyInt 3)) [] = Throw (Exn TypeError).
Proof.
  destruct (FlatMap_Map_Filter_first_argument
              (PyFunction (λ _, Ok PyNone) None) [] "" (PyInt 3))
    as (_ & _ & _ & _ & _ & _ & _ & Hother).
  destruct (Hother eq_refl) as (HMap & _ & HFlatMap).
  split; [exact HMap | by apply HFlatMap].
Defined.

(* ------------------------------------------------------------------ *)
(** ** CombineGlobally                                                 *)
(* ------------------------------------------------------------------ *)

Section CombineGlobally_apply.
Context {P WindowFn TriggerFn : Type} `{!WindowingModule WindowFn TriggerFn}.
Variable windowfn_ne : WindowFn → WindowFn → bool.

(** X18: When the combiner has an output [d] for no elements,
    [CombineGlobally.apply] raises [ValueError] exactly when defaults are
    on, no view is asked for and the input is not windowed by
    [GlobalWindows]; as the message of the error says,
    [without_defaults()] and [as_singleton_view()] both avoid it:
    the first returns the combined collection without asking the combiner
    for anything, the second a view whose default is [d]. *)
Theorem CombineGlobally_apply_ValueError (self : CombineGlobally)
    (pcoll_windowfn : WindowFn) (combined : P) (d : pyval) :
  (combine_fn ← CombineFn_maybe_from_callable (CombineGlobally_fn self);
   CombineFn_apply combine_fn [] (CombineGlobally_args self)) = Ok d →
  (CombineGlobally_apply windowfn_ne self pcoll_windowfn combined
     = Raise ValueError
   ↔ has_defaults self = true ∧ as_view self = false
     ∧ windowfn_ne pcoll_windowfn GlobalWindows = true)
  ∧ (has_defaults self = true → as_view self = false →
     windowfn_ne pcoll_windowfn GlobalWindows = false →
     CombineGlobally_apply windowfn_ne self pcoll_windowfn combined
     = Ok (ReturnInjected combined (Some d)))
  ∧ (as_view self = false →
     CombineGlobally_apply windowfn_ne (without_defaults self)
       pcoll_windowfn combined = Ok (ReturnCombined combined))
  ∧ CombineGlobally_apply windowfn_ne (as_singleton_view self)
      pcoll_windowfn combined
    = Ok (ReturnView combined (if has_defaults self then Some d else None)).
Proof.
  intros Hd. unfold CombineGlobally_apply, without_defaults, with_defaults,
    as_singleton_view. simpl.
  destruct (CombineFn_maybe_from_callable (CombineGlobally_fn self))
    as [cf|e]; simpl in Hd; [|done].
  simpl. rewrite Hd. simpl.
  destruct (has_defaults self), (as_view self),
    (windowfn_ne pcoll_windowfn GlobalWindows); simpl;
    split_and!; try done; try (split; [done|]; by intros (? & ? & ?)).
Qed.

(** Without defaults and without a view the combiner is not asked for
    anything: [apply] returns the combined collection even for a [fn]
    that is no combiner at all. *)
Lemma CombineGlobally_apply_without_defaults (self : CombineGlobally)
    (pcoll_windowfn : WindowFn) (combined : P) :
  as_view self = false →
  CombineGlobally_apply windowfn_ne (without_defaults self)
    pcoll_windowfn combined = Ok (ReturnCombined combined).
Proof.
  intros Hview. unfold CombineGlobally_apply. simpl. by rewrite Hview.
Qed.
End CombineGlobally_apply.

Lemma CombineGlobally_apply_ValueError_witness :
  let self := {| CombineGlobally_label := PyNone;
                 CombineGlobally_fn := FnCallable py_sum;
                 CombineGlobally_args := [];
                 has_defaults := true; as_view := false |} in
  CombineGlobally_apply (λ a b, negb (bool_decide (a = b))) self
    (SampleFixedWindows 60) () = Raise ValueError
  ∧ CombineGlobally_apply (λ a b, negb (bool_decide (a = b))) self
      SampleGlobalWindows () = Ok (ReturnInjected () (Some (PyInt 0))).
Proof.
  intros self.
  destruct (CombineGlobally_apply_ValueError
              (λ a b : SampleWindowFn, negb (bool_decide (a = b)))
              self (SampleFixedWindows 60) () (PyInt 0) eq_refl)
    as (Hraise & _).
  destruct (CombineGlobally_apply_ValueError
              (λ a b : SampleWindowFn, negb (bool_decide (a = b)))
              self SampleGlobalWindows () (PyInt 0) eq_refl)
    as (_ & Hinject & _).
  split; [apply Hraise; by repeat split | by apply Hinject].
Defined.

(* ------------------------------------------------------------------ *)
(** ** The product reducer, combined per key                           *)
(* ------------------------------------------------------------------ *)

Lemma multiply_loop_ints (r : Z) (zs : list Z) :
  multiply_loop (PyInt r) (PyInt <$> zs)
  = Ok (PyInt (r * foldr Z.mul 1%Z zs)).
Proof.
  revert r. induction zs as [|z zs IH]; intros r.
  - simpl. by rewrite Z.mul_1_r.
  - rewrite fmap_cons. cbn [multiply_loop py_mul mbind result_bind].
    rewrite IH. cbn [foldr]. by rewrite Z.mul_assoc.
Qed.

Lemma py_slice_step_fmap {A B : Type} (f : A → B) (skip step : nat)
    (l : list A) :
  py_slice_step skip step (f <$> l) = f <$> py_slice_step skip step l.
Proof.
  revert skip. induction l as [|x l IH]; intros skip; [done|].
  rewrite fmap_cons. destruct skip; cbn [py_slice_step].
  - by rewrite fmap_cons, IH.
  - apply IH.
Qed.

Lemma round_robin_batches_fmap {A B : Type} (f : A → B) (l : list A)
    (ks : list nat) :
  round_robin_batches (list_fmap A B f l) ks
  = list_fmap (list A) (list B) (list_fmap A B f) (round_robin_batches l ks).
Proof.
  induction ks as [|k ks IH]; [done|]. cbn [round_robin_batches].
  rewrite length_fmap. case_bool_decide; [done|].
  by rewrite fmap_cons, py_slice_step_fmap, IH.
Qed.

Lemma product_perm (p q : list Z) :
  p ≡ₚ q → foldr Z.mul 1%Z p = foldr Z.mul 1%Z q.
Proof.
  induction 1 as [|x p q _ IH|x y p|p q r _ IH1 _ IH2]; simpl;
    [done | by rewrite IH | lia | congruence].
Qed.

Lemma product_concat (batches : list (list Z)) :
  foldr Z.mul 1%Z (foldr Z.mul 1%Z <$> batches)
  = foldr Z.mul 1%Z (concat batches).
Proof.
  induction batches as [|b bs IH]; [done|].
  rewrite fmap_cons. cbn [foldr concat]. rewrite IH.
  induction b as [|z b IHb]; simpl; lia.
Qed.

Lemma accumulate_multiply_ints (zs : list Z) :
  accumulate (CallableWrapperCombineFn multiply) [] (PyInt <$> zs)
  = Ok (PyInt (foldr Z.mul 1%Z zs)).
Proof.
  change (accumulate (CallableWrapperCombineFn multiply) [] (PyInt <$> zs))
    with (multiply_loop (PyInt 1) (PyInt <$> zs)).
  rewrite multiply_loop_ints. f_equal. f_equal. lia.
Qed.

Lemma mapM_accumulate_multiply (batches : list (list Z)) :
  mapM (accumulate (CallableWrapperCombineFn multiply) [])
    (list_fmap (list Z) (list pyval) (list_fmap Z pyval PyInt) batches)
  = Ok (PyInt <$> (foldr Z.mul 1%Z <$> batches)).
Proof.
  apply mapM_result_Ok.
  induction batches as [|b bs IH]; [constructor|].
  cbn [list_fmap]. rewrite !fmap_cons.
  constructor; [apply accumulate_multiply_ints | exact IH].
Qed.

(** X5: Combining the integers of one key with the test's [multiply] gives
    their product, in the split branch as in the single-shot one, for
    every list of integers (1 for none). *)
Theorem CombineValuesDoFn_process_multiply {K : Type} (k : K) (zs : list Z)
    (rtc : bool) :
  CombineValuesDoFn_process
    {| combinefn := CallableWrapperCombineFn multiply;
       runtime_type_check := rtc |} (k, PyInt <$> zs) []
  = Ok [(k, PyInt (foldr Z.mul 1%Z zs))].
Proof.
  unfold CombineValuesDoFn_process.
  cbn [runtime_type_check combinefn fst snd]. destruct rtc.
  - change (CombineFn_apply (CallableWrapperCombineFn multiply)
              (PyInt <$> zs) [])
      with (r ← multiply_loop (PyInt 1) (PyInt <$> zs);
            if is_EMPTY r then multiply [] [] else Ok r).
    by rewrite multiply_loop_ints, Z.mul_1_l.
  - rewrite fill_accumulators_mapM, round_robin_batches_fmap,
      mapM_accumulate_multiply.
    cbn [mbind result_bind].
    change (merge_accumulators (CallableWrapperCombineFn multiply)
              (PyInt <$> (foldr Z.mul 1%Z <$>
                 round_robin_batches zs (py_range 3))) [])
      with (multiply_loop (PyInt 1)
              (PyInt <$> (foldr Z.mul 1%Z <$>
                 round_robin_batches zs (py_range 3)))).
    by rewrite multiply_loop_ints, Z.mul_1_l, product_concat,
      (product_perm _ _ (round_robin_batches_concat zs)).
Qed.

(* ------------------------------------------------------------------ *)
(** ** The properties above, at sample inputs                          *)
(* ------------------------------------------------------------------ *)


Lemma Partition_outputs_declared_witness :
  ∃ p, (0 ≤ p < 3)%Z
       ∧ [Build_SideOutputValue "2" 17%Z]
         = [Build_SideOutputValue (py_str_int p) 17%Z]
       ∧ py_str_int p ∈ Partition_tags 3.
Proof.
  destruct (Partition_outputs_declared
              {| element := 17%Z; timestamp := (); windows := [] |}
              SamplePartitionFn 3 ()) as (Hout & _).
  exact (Hout [Build_SideOutputValue "2" 17%Z] eq_refl).
Defined.

Lemma ParDo_with_outputs_keywords_witness :
  ParDo_with_outputs () [PyStr "even"; PyStr "odd"]
    {[ "main" := PyStr "rest"; "extra" := PyNone ]} = Raise ValueError.
Proof.
  apply (ParDo_with_outputs_keywords () [PyStr "even"; PyStr "odd"]
           {[ "main" := PyStr "rest"; "extra" := PyNone ]}).
  exists "extra". split; [discriminate | by eexists].
Defined.

Lemma Flatten_arguments_witness :
  Flatten_extract_input_pvalues (PyInt 5) = Raise ValueError
  ∧ Flatten_extract_input_pvalues (PyList [PyInt 1; PyInt 2])
    = Ok (PyTuple [PyInt 1; PyInt 2], PyTuple [PyInt 1; PyInt 2]).
Proof.
  destruct (Flatten_arguments PyNone (PyInt 5) ∅) as (_ & _ & Hraise & _).
  destruct (Flatten_arguments PyNone (PyList [PyInt 1; PyInt 2]) ∅)
    as (_ & _ & _ & _ & Hok).
  split; [by apply Hraise | by apply Hok].
Defined.

(* ------------------------------------------------------------------ *)
(** ** Any split into batches, and what [Create] leaves alone          *)
(* ------------------------------------------------------------------ *)





(* ------------------------------------------------------------------ *)
(** ** Windowing with a stated accumulation mode                       *)
(* ------------------------------------------------------------------ *)

Section Windowing_explicit_mode.
Context {WindowFn TriggerFn : Type} `{!WindowingModule WindowFn TriggerFn}.

(** X19: With the accumulation mode stated, [Windowing] is constructed
    whatever the window function and the trigger, the default trigger
    with [ACCUMULATING] included; it keeps the mode and the trigger given
    (the default trigger when none is given), and with [ACCUMULATING] it
    is never the default windowing. *)
Theorem Windowing_init_explicit_mode (wf : WindowFn) (t : option TriggerFn)
    (mode : AccumulationMode) :
  ∃ w, Windowing_init wf t (Some mode) = Ok w
       ∧ windowfn w = wf
       ∧ triggerfn w = default DefaultTrigger t
       ∧ accumulation_mode w = mode
       ∧ (mode = ACCUMULATING → is_default w = false).
Proof.
  eexists. split; [done|]. simpl.
  split; [done|]. split; [by destruct t|]. split; [done|].
  intros ->. unfold is_default. simpl. apply andb_false_r.
Qed.
End Windowing_explicit_mode.

Lemma Windowing_init_explicit_mode_witness :
  ∃ w, Windowing_init SampleGlobalWindows None (Some ACCUMULATING) = Ok w
       ∧ triggerfn w = SampleDefaultTrigger
       ∧ is_default w = false.
Proof.
  destruct (Windowing_init_explicit_mode SampleGlobalWindows None ACCUMULATING)
    as (w & Hw & _ & Ht & _ & Hdefault).
  exists w. split_and!; [exact Hw | exact Ht | by apply Hdefault].
Defined.
